(** * Door hardware placement: hinges, locks, handles, bolts, conflicts

    A shallow embedding of the placement algorithms of the door
    configurator (the hinge placement algorithm and the hardware placement
    algorithm), followed by the properties proved about them.

    Number model.  A TypeScript [number] that holds a length, an angle or a
    weight is a real number ([R]): arithmetic is exact, there is no rounding
    and no NaN.  A [number] that counts hinges is an integer ([Z]) and a loop
    index is a [nat], injected with [IZR] and [INR] where the code mixes it
    with lengths.  An optional field is an [option]; a field that an object
    literal leaves out is [None]. *)

From Stdlib Require Import Reals Lra Lia ZArith List Bool Sorted Permutation.
From Stdlib Require Import String Ascii DecimalString DecimalNat.
Import ListNotations.

Open Scope R_scope.

(** ** JavaScript helpers *)

Module Js.

(** [a || d] on an optional number: [undefined] and [0] are falsy. *)
Definition orDefault (a : option R) (d : R) : R :=
  match a with
  | Some v => if Req_dec_T v 0 then d else v
  | None => d
  end.

(** Truthiness of an optional number, as in [a ? .. : ..] and [!a]. *)
Definition truthy (a : option R) : bool :=
  match a with
  | Some v => if Req_dec_T v 0 then false else true
  | None => false
  end.

(** [a || d] on an optional value that is never falsy when present. *)
Definition orElse {A : Type} (a : option A) (d : A) : A :=
  match a with
  | Some v => v
  | None => d
  end.

(** [l.splice(start, 0, item)]: insert [item] at index [start]; a start
    beyond the end is clamped to the length. *)
Definition splice {A : Type} (l : list A) (start : nat) (item : A) : list A :=
  firstn start l ++ item :: skipn start l.

(** [l.sort(compareFn)]: a stable sort; [a] goes before [b] when
    [compareFn a b <= 0]. *)
Fixpoint sort_insert (compareFn : R -> R -> R) (a : R) (l : list R) : list R :=
  match l with
  | [] => [a]
  | b :: l' =>
      if Rle_dec (compareFn a b) 0 then a :: l
      else b :: sort_insert compareFn a l'
  end.

Fixpoint sort (compareFn : R -> R -> R) (l : list R) : list R :=
  match l with
  | [] => []
  | a :: l' => sort_insert compareFn a (sort compareFn l')
  end.

(** [Math.pow(base, exponent)] for a base that is not negative. *)
Definition Math_pow (base exponent : R) : R :=
  if Rlt_dec 0 base then Rpower base exponent else 0.

(** Decimal rendering of a loop index inside a template literal. *)
Definition showNat (n : nat) : string :=
  NilEmpty.string_of_uint (Nat.to_uint n).

(** A thrown [Error] or a returned value. *)
Inductive result (E A : Type) : Type :=
| Ok (value : A)
| Throw (error : E).
Arguments Ok {E A} value.
Arguments Throw {E A} error.

End Js.

(** ** Geometry primitives *)

Module Vector3.

Record t : Type := new { x : R; y : R; z : R }.

Definition add (a b : t) : t :=
  new (x a + x b) (y a + y b) (z a + z b).

Definition distanceTo (a b : t) : R :=
  sqrt ((x a - x b) * (x a - x b)
        + (y a - y b) * (y a - y b)
        + (z a - z b) * (z a - z b)).

End Vector3.

Module Euler.

Record t : Type := new { x : R; y : R; z : R; order : string }.

End Euler.

Inductive Edge : Type := Left | Right.

(** [{ valid: true }] or [{ valid: false, error }]. *)
Inductive ValidationResult (E : Type) : Type :=
| Valid
| Invalid (error : E).
Arguments Valid {E}.
Arguments Invalid {E} error.

Definition valid {E : Type} (v : ValidationResult E) : bool :=
  match v with
  | Valid => true
  | Invalid _ => false
  end.

(** ** Hinge placement algorithm *)

Module Hinge.

Inductive HingeType : Type := butt | concealed | piano.

Definition typeName (t : HingeType) : string :=
  match t with
  | butt => "butt"
  | concealed => "concealed"
  | piano => "piano"
  end.

Inductive DistributionMode : Type := even | weighted.

Record PlacementRules : Type := mkPlacementRules {
  topOffset : option R;
  bottomOffset : option R;
  distributionMode : option DistributionMode
}.

Record HingePlacementInput : Type := mkHingePlacementInput {
  doorHeight : R;
  doorWidth : R;
  leafThickness : R;
  hingeCount : Z;
  hingeType : HingeType;
  hingeSide : Edge;
  placementRules : option PlacementRules
}.

(** The messages of the errors, one constructor per message:
    - [MinimumTwoHinges]: 'Minimum 2 hinges required'
    - [MinimumHingeCount m h w]: 'Door requires minimum m hinges
      (height: h mm, weight: w kg)'
    - [TopOffsetTooSmall]: 'Top offset must be >= 100mm'
    - [BottomOffsetTooSmall]: 'Bottom offset must be >= 100mm'
    - [InsufficientSpace n]: 'Insufficient space for n hinges with
      current offsets' *)
Inductive Error : Type :=
| MinimumTwoHinges
| MinimumHingeCount (minRequired : Z) (doorHeight doorWeight : R)
| TopOffsetTooSmall
| BottomOffsetTooSmall
| InsufficientSpace (hingeCount : Z).

Record Metadata : Type := mkMetadata {
  index : option nat;
  type : option HingeType;
  side : option Edge;
  yPosition : option R;
  isPiano : option bool;
  length : option R
}.

Record HingePlacement : Type := mkHingePlacement {
  id : option string;
  position : Vector3.t;
  rotation : Euler.t;
  metadata : Metadata
}.

Definition getHingeXPosition (hingeSide : Edge) (doorWidth : R) : R :=
  match hingeSide with
  | Left => 0
  | Right => doorWidth
  end.

Definition calculateHingeYPositions (hingeCount : Z)
    (doorHeight topOffset bottomOffset : R)
    (distributionMode : DistributionMode) : Js.result Error (list R) :=
  if (hingeCount <? 2)%Z then Js.Throw MinimumTwoHinges
  else
    let positions := [bottomOffset; doorHeight - topOffset] in
    if (hingeCount =? 2)%Z then Js.Ok positions
    else
      let middleCount := (hingeCount - 2)%Z in
      let availableHeight := (doorHeight - topOffset) - bottomOffset in
      let positions :=
        match distributionMode with
        | even =>
            let spacing := availableHeight / IZR (hingeCount - 1) in
            fold_left
              (fun positions i =>
                 Js.splice positions i (bottomOffset + spacing * INR i))
              (seq 1 (Z.to_nat middleCount)) positions
        | weighted =>
            fold_left
              (fun positions i =>
                 let t := INR i / IZR (hingeCount - 1) in
                 let weightedT := Js.Math_pow t 0.8 in
                 let yPos := bottomOffset + availableHeight * weightedT in
                 Js.splice positions i yPos)
              (seq 1 (Z.to_nat middleCount)) positions
        end in
      Js.Ok (Js.sort (fun a b => a - b) positions).

Definition getHingeZPosition (hingeType : HingeType) (leafThickness : R) : R :=
  match hingeType with
  | butt => 0
  | concealed => - (leafThickness - 10)
  | piano => 0
  end.

Definition getHingeRotation (hingeSide : Edge) (hingeType : HingeType)
    : Euler.t :=
  let rotationY :=
    match hingeSide with
    | Left => PI / 2
    | Right => - PI / 2
    end in
  Euler.new 0 rotationY 0 "XYZ".

Record ButtHingeParams : Type := mkButtHingeParams {
  plateWidth : R;
  plateHeight : R;
  barrelDiameter : R
}.

Definition adjustButtHingePlacement (basePosition : Vector3.t)
    (hingeSide : Edge) (params : ButtHingeParams) : Vector3.t :=
  let offset := barrelDiameter params / 2 in
  match hingeSide with
  | Left => Vector3.add basePosition (Vector3.new (- offset) 0 0)
  | Right => Vector3.add basePosition (Vector3.new offset 0 0)
  end.

Record ConcealedHingeParams : Type := mkConcealedHingeParams {
  cupDiameter : R;
  cupDepth : R;
  armLength : R
}.

Definition adjustConcealedHingePlacement (basePosition : Vector3.t)
    (leafThickness : R) (params : ConcealedHingeParams) : Vector3.t :=
  let cupCenterZ := - (cupDepth params / 2) in
  let edgeInset := 5 in
  Vector3.new
    (Vector3.x basePosition
     + (if Req_dec_T (Vector3.x basePosition) 0 then edgeInset
        else - edgeInset))
    (Vector3.y basePosition)
    cupCenterZ.

Record PianoHingeParams : Type := mkPianoHingeParams {
  width : R;
  fullHeight : bool
}.

Definition calculatePianoHingePlacement (doorHeight doorWidth : R)
    (hingeSide : Edge) (params : PianoHingeParams) : HingePlacement :=
  let xPos := match hingeSide with Left => 0 | Right => doorWidth end in
  let yPos := doorHeight / 2 in
  mkHingePlacement
    None
    (Vector3.new xPos yPos 0)
    (getHingeRotation hingeSide piano)
    (mkMetadata None None None None (Some true) (Some doorHeight)).

Definition validateHingeCount (doorHeight doorWeight : R) (hingeCount : Z)
    : ValidationResult Error :=
  let minRequired := 2%Z in
  let minRequired :=
    if Rgt_dec doorHeight 2100 then 3%Z else minRequired in
  let minRequired :=
    if Rgt_dec doorWeight 50 then Z.max minRequired 3 else minRequired in
  let minRequired :=
    if Rgt_dec doorWeight 80 then Z.max minRequired 4 else minRequired in
  if (hingeCount <? minRequired)%Z
  then Invalid (MinimumHingeCount minRequired doorHeight doorWeight)
  else Valid.

Definition validateOffsets (doorHeight topOffset bottomOffset : R)
    (hingeCount : Z) : ValidationResult Error :=
  if Rlt_dec topOffset 100 then Invalid TopOffsetTooSmall
  else if Rlt_dec bottomOffset 100 then Invalid BottomOffsetTooSmall
  else
    let availableSpace := doorHeight - topOffset - bottomOffset in
    let minSpacingPerHinge := 150 in
    let requiredSpace := IZR (hingeCount - 2) * minSpacingPerHinge in
    if Rlt_dec availableSpace requiredSpace
    then Invalid (InsufficientSpace hingeCount)
    else Valid.

Section PlaceHinges.

(** The helper that estimates the weight of the door from the input
    is not part of the algorithm's text; it is taken as given. *)
Variable estimateDoorWeight : HingePlacementInput -> R.

Definition rule {A : Type} (input : HingePlacementInput)
    (field : PlacementRules -> option A) : option A :=
  match placementRules input with
  | Some rules => field rules
  | None => None
  end.

(** The type-specific adjustment applied inside the loop of step 7. *)
Definition applyTypeAdjustments (input : HingePlacementInput)
    (position : Vector3.t) : Vector3.t :=
  match hingeType input with
  | butt =>
      adjustButtHingePlacement position (hingeSide input)
        (mkButtHingeParams 45 75 12)
  | concealed =>
      adjustConcealedHingePlacement position (leafThickness input)
        (mkConcealedHingeParams 35 12 95)
  | piano => position
  end.

(** The body of the loop of step 7, at index [i]. *)
Definition buildPlacement (input : HingePlacementInput) (xPos zPos : R)
    (rotation : Euler.t) (i : nat) (yPositions_i : R) : HingePlacement :=
  let position := Vector3.new xPos yPositions_i zPos in
  let position := applyTypeAdjustments input position in
  mkHingePlacement
    (Some ("hinge_" ++ Js.showNat i)%string)
    position
    rotation
    (mkMetadata (Some i) (Some (hingeType input))
       (Some (hingeSide input)) (Some yPositions_i) None None).

(** The loop of step 7, from index [i] on. *)
Fixpoint buildPlacements (input : HingePlacementInput) (xPos zPos : R)
    (rotation : Euler.t) (i : nat) (yPositions : list R)
    : list HingePlacement :=
  match yPositions with
  | [] => []
  | yPositions_i :: rest =>
      buildPlacement input xPos zPos rotation i yPositions_i
      :: buildPlacements input xPos zPos rotation (S i) rest
  end.

Definition placeHinges (input : HingePlacementInput)
    : Js.result Error (list HingePlacement) :=
  match
    validateHingeCount (doorHeight input) (estimateDoorWeight input)
      (hingeCount input)
  with
  | Invalid e => Js.Throw e
  | Valid =>
    match hingeType input with
    | piano =>
        Js.Ok [calculatePianoHingePlacement (doorHeight input)
                 (doorWidth input) (hingeSide input)
                 (mkPianoHingeParams 30 true)]
    | _ =>
        match
          calculateHingeYPositions (hingeCount input) (doorHeight input)
            (Js.orDefault (rule input topOffset) 150)
            (Js.orDefault (rule input bottomOffset) 150)
            (Js.orElse (rule input distributionMode) even)
        with
        | Js.Throw e => Js.Throw e
        | Js.Ok yPositions =>
            let xPos :=
              getHingeXPosition (hingeSide input) (doorWidth input) in
            let zPos :=
              getHingeZPosition (hingeType input) (leafThickness input) in
            let rotation :=
              getHingeRotation (hingeSide input) (hingeType input) in
            Js.Ok (buildPlacements input xPos zPos rotation 0 yPositions)
        end
    end
  end.

End PlaceHinges.

End Hinge.

(** ** Lock placement algorithm *)

Module Lock.

Inductive LockType : Type := cylinder | mortise | deadbolt | smart.

Record LockPlacementInput : Type := mkLockPlacementInput {
  doorHeight : R;
  doorWidth : R;
  leafThickness : R;
  lockType : LockType;
  lockHeight : R;
  edgeOffset : R;
  edge : Edge;
  handleHeight : option R
}.

(** The messages of the errors, one constructor per message:
    - [HeightOutOfRange]: 'Lock height must be between 800-1200mm'
    - [HingeProximityViolation y]: 'Lock conflicts with hinge at y mm'
    - [EdgeOffsetOutOfRange]: 'Lock edge offset must be between 50-90mm'
    - [ThicknessInsufficient t k m]: 'Door thickness t mm insufficient
      for k lock (minimum m mm)' *)
Inductive Error : Type :=
| HeightOutOfRange
| HingeProximityViolation (hingeY : R)
| EdgeOffsetOutOfRange
| ThicknessInsufficient (leafThickness : R) (lockType : LockType)
    (minThickness : R).

Definition calculateLockDepth (lockType : LockType) (leafThickness : R) : R :=
  match lockType with
  | cylinder => - leafThickness / 2
  | mortise => - Rmin 40 (leafThickness * 0.7)
  | deadbolt => - leafThickness / 2
  | smart => - 5
  end.

Definition calculateLockPosition (input : LockPlacementInput) : Vector3.t :=
  let xPos :=
    match edge input with
    | Left => edgeOffset input
    | Right => doorWidth input - edgeOffset input
    end in
  let yPos := lockHeight input in
  let zPos := calculateLockDepth (lockType input) (leafThickness input) in
  Vector3.new xPos yPos zPos.

Definition getMinimumThicknessForLock (lockType : LockType) : R :=
  match lockType with
  | cylinder => 35
  | mortise => 40
  | deadbolt => 38
  | smart => 40
  end.

(** The loop of rule 2: the first hinge closer than 150mm, if any. *)
Fixpoint hingeConflict (lockHeight : R)
    (hingePlacements : list Hinge.HingePlacement) : option Error :=
  match hingePlacements with
  | [] => None
  | hinge :: rest =>
      let minDistanceFromHinge := 150 in
      let distanceY :=
        Rabs (Vector3.y (Hinge.position hinge) - lockHeight) in
      if Rlt_dec distanceY minDistanceFromHinge
      then Some (HingeProximityViolation (Vector3.y (Hinge.position hinge)))
      else hingeConflict lockHeight rest
  end.

Definition validateLockPlacement (input : LockPlacementInput)
    (hingePlacements : list Hinge.HingePlacement) : ValidationResult Error :=
  if Rlt_dec (lockHeight input) 800 then Invalid HeightOutOfRange
  else if Rgt_dec (lockHeight input) 1200 then Invalid HeightOutOfRange
  else
    match hingeConflict (lockHeight input) hingePlacements with
    | Some e => Invalid e
    | None =>
        if Rlt_dec (edgeOffset input) 50 then Invalid EdgeOffsetOutOfRange
        else if Rgt_dec (edgeOffset input) 90
        then Invalid EdgeOffsetOutOfRange
        else
          let minThickness := getMinimumThicknessForLock (lockType input) in
          if Rlt_dec (leafThickness input) minThickness
          then Invalid
                 (ThicknessInsufficient (leafThickness input)
                    (lockType input) minThickness)
          else Valid
    end.

(** Modelled from the spec: the type [LockPlacement] is used by the
    handle coordination and by the conflict detector but is not declared;
    it is a placement like the others: an id, a position and a metadata
    object with a [type]. *)
Record LockPlacement : Type := mkLockPlacement {
  id : option string;
  position : Vector3.t;
  metadata_type : option string
}.

Definition calculateLockRotation (edge : Edge) (lockType : LockType)
    : Euler.t :=
  let rotationY :=
    match edge with
    | Left => PI / 2
    | Right => - PI / 2
    end in
  Euler.new 0 rotationY 0 "XYZ".

Record CylinderLockParams : Type := mkCylinderLockParams {
  cylinderDiameter : R;
  cylinderLength : R;
  backsetDistance : R
}.

Definition adjustCylinderLockPlacement (basePosition : Vector3.t)
    (params : CylinderLockParams) : Vector3.t :=
  Vector3.new (backsetDistance params) (Vector3.y basePosition)
    (Vector3.z basePosition).

Record MortiseLockParams : Type := mkMortiseLockParams {
  bodyWidth : R;
  bodyHeight : R;
  bodyDepth : R;
  backset : R
}.

Definition adjustMortiseLockPlacement (basePosition : Vector3.t)
    (edge : Edge) (doorWidth : R) (params : MortiseLockParams) : Vector3.t :=
  let xPos :=
    match edge with
    | Left => backset params
    | Right => doorWidth - backset params
    end in
  Vector3.new xPos (Vector3.y basePosition) (Vector3.z basePosition).

End Lock.

(** ** Handle placement algorithm *)

Module Handle.

Inductive HandleType : Type := lever | knob | pull | bar.
Inductive HandleStyle : Type := modern | traditional | industrial | minimal.
Inductive MountSide : Type := exterior | interior.
Inductive Sides : Type := both | only (side : MountSide).

Record HandlePlacementInput : Type := mkHandlePlacementInput {
  doorHeight : R;
  doorWidth : R;
  leafThickness : R;
  handleType : HandleType;
  handleStyle : HandleStyle;
  handleHeight : R;
  side : Sides;
  lockHeight : option R;
  edge : Edge
}.

Definition calculateHandleDepth (handleType : HandleType)
    (leafThickness : R) (side : MountSide) : R :=
  match handleType with
  | lever | knob =>
      match side with
      | exterior => 0
      | interior => - leafThickness
      end
  | pull =>
      let standoffDistance := 40 in
      match side with
      | exterior => standoffDistance
      | interior => - (leafThickness + standoffDistance)
      end
  | bar =>
      let barStandoff := 50 in
      match side with
      | exterior => barStandoff
      | interior => - (leafThickness + barStandoff)
      end
  end.

Definition calculateHandlePosition (input : HandlePlacementInput)
    (side : MountSide) : Vector3.t :=
  let edgeOffset := if Js.truthy (lockHeight input) then 60 else 70 in
  let xPos :=
    match edge input with
    | Left => edgeOffset
    | Right => doorWidth input - edgeOffset
    end in
  let yPos := handleHeight input in
  let zPos :=
    calculateHandleDepth (handleType input) (leafThickness input) side in
  Vector3.new xPos yPos zPos.

Definition coordinateHandleWithLock (handleInput : HandlePlacementInput)
    (lockPlacement : Lock.LockPlacement) : HandlePlacementInput :=
  if negb (Js.truthy (lockHeight handleInput)) then handleInput
  else
    mkHandlePlacementInput
      (doorHeight handleInput) (doorWidth handleInput)
      (leafThickness handleInput) (handleType handleInput)
      (handleStyle handleInput)
      (Vector3.y (Lock.position lockPlacement))
      (side handleInput) (lockHeight handleInput) (edge handleInput).

(** Modelled from the spec: the type [HandlePlacement] is used by the
    conflict detector but is not declared; it is a placement like the
    others. *)
Record HandlePlacement : Type := mkHandlePlacement {
  id : option string;
  position : Vector3.t;
  metadata_type : option string
}.

Definition calculateHandleRotation (edge : Edge) (handleType : HandleType)
    (side : MountSide) : Euler.t :=
  let rotationY :=
    match handleType with
    | lever | knob =>
        match edge with
        | Left =>
            match side with
            | exterior => PI / 2
            | interior => - PI / 2
            end
        | Right =>
            match side with
            | exterior => - PI / 2
            | interior => PI / 2
            end
        end
    | pull | bar =>
        match side with
        | exterior => 0
        | interior => PI
        end
    end in
  Euler.new 0 rotationY 0 "XYZ".

End Handle.

(** ** Inactive leaf bolt algorithm *)

Module Bolt.

Inductive BoltType : Type := flush | surface | automatic.

Definition typeName (t : BoltType) : string :=
  match t with
  | flush => "flush"
  | surface => "surface"
  | automatic => "automatic"
  end.

Inductive Position : Type := top | bottom.

Definition positionName (p : Position) : string :=
  match p with
  | top => "top"
  | bottom => "bottom"
  end.

Record BoltPlacementInput : Type := mkBoltPlacementInput {
  doorHeight : R;
  doorWidth : R;
  leafThickness : R;
  boltType : BoltType;
  positions : list Position;
  topOffset : R;
  bottomOffset : R;
  meetingEdge : Edge
}.

(** The messages of the errors, one constructor per message:
    - [TopOffsetOutOfRange]: 'Top bolt offset must be between 150-300mm'
    - [BottomOffsetOutOfRange]: 'Bottom bolt offset must be between
      150-300mm'
    - [NoPositionsSpecified]: 'At least one bolt position required'
    - [ThicknessInsufficient]: 'Flush/automatic bolts require minimum
      40mm door thickness' *)
Inductive Error : Type :=
| TopOffsetOutOfRange
| BottomOffsetOutOfRange
| NoPositionsSpecified
| ThicknessInsufficient.

Module Metadata.
Record t : Type := new { position : Position; type : BoltType }.
End Metadata.

Record BoltPlacement : Type := mkBoltPlacement {
  id : string;
  position : Vector3.t;
  rotation : Euler.t;
  metadata : Metadata.t
}.

Definition calculateBoltDepth (boltType : BoltType) (leafThickness : R) : R :=
  match boltType with
  | flush => - leafThickness / 2
  | surface => 0
  | automatic => - leafThickness / 2
  end.

Definition calculateBoltRotation (position : Position) (boltType : BoltType)
    : Euler.t :=
  let rotationZ :=
    match boltType with
    | flush | automatic =>
        match position with
        | top => 0
        | bottom => PI
        end
    | surface => 0
    end in
  Euler.new 0 0 rotationZ "XYZ".

(** The body of the loop over [input.positions]. *)
Definition placeBolt (input : BoltPlacementInput) (position : Position)
    : BoltPlacement :=
  let yPos :=
    match position with
    | top => doorHeight input - topOffset input
    | bottom => bottomOffset input
    end in
  let xPos :=
    match meetingEdge input with
    | Left => 40
    | Right => doorWidth input - 40
    end in
  let zPos := calculateBoltDepth (boltType input) (leafThickness input) in
  mkBoltPlacement
    ("bolt_" ++ positionName position)%string
    (Vector3.new xPos yPos zPos)
    (calculateBoltRotation position (boltType input))
    (Metadata.new position (boltType input)).

Definition calculateBoltPositions (input : BoltPlacementInput)
    : list BoltPlacement :=
  fold_left
    (fun placements position => placements ++ [placeBolt input position])
    (positions input) [].

Definition validateBoltPlacement (input : BoltPlacementInput)
    : ValidationResult Error :=
  if Rlt_dec (topOffset input) 150 then Invalid TopOffsetOutOfRange
  else if Rgt_dec (topOffset input) 300 then Invalid TopOffsetOutOfRange
  else if Rlt_dec (bottomOffset input) 150 then Invalid BottomOffsetOutOfRange
  else if Rgt_dec (bottomOffset input) 300
  then Invalid BottomOffsetOutOfRange
  else if Nat.eqb (List.length (positions input)) 0
  then Invalid NoPositionsSpecified
  else
    match boltType input with
    | flush | automatic =>
        if Rlt_dec (leafThickness input) 40 then Invalid ThicknessInsufficient
        else Valid
    | surface => Valid
    end.

End Bolt.

(** ** Hardware conflict detection *)

Module Conflict.

Inductive ConflictType : Type := overlap | proximity.
Inductive Severity : Type := error | warning.

Record HardwareConflict : Type := mkHardwareConflict {
  type : ConflictType;
  items : option string * option string;
  distance : R;
  severity : Severity
}.

(** What the detector reads of an element of [allHardware]: [id],
    [position] and [metadata.type]. *)
Record Item : Type := mkItem {
  id : option string;
  position : Vector3.t;
  metadata_type : option string
}.

Definition ofHinge (h : Hinge.HingePlacement) : Item :=
  mkItem (Hinge.id h) (Hinge.position h)
    (option_map Hinge.typeName (Hinge.type (Hinge.metadata h))).

Definition ofLock (l : Lock.LockPlacement) : Item :=
  mkItem (Lock.id l) (Lock.position l) (Lock.metadata_type l).

Definition ofHandle (h : Handle.HandlePlacement) : Item :=
  mkItem (Handle.id h) (Handle.position h) (Handle.metadata_type h).

Definition ofBolt (b : Bolt.BoltPlacement) : Item :=
  mkItem (Some (Bolt.id b)) (Bolt.position b)
    (Some (Bolt.typeName (Bolt.Metadata.type (Bolt.metadata b)))).

(** [[a, b].sort()]: [undefined] goes last, strings are ordered by their
    code units, and equal elements keep their order. *)
Definition sortTypes (a b : option string) : option string * option string :=
  match a, b with
  | Some s1, Some s2 => if String.ltb s2 s1 then (b, a) else (a, b)
  | None, Some _ => (b, a)
  | _, _ => (a, b)
  end.

(** An element of an array inside a template literal. *)
Definition show (a : option string) : string :=
  match a with
  | Some s => s
  | None => "undefined"
  end.

Definition minClearance : list (string * R) :=
  [ ("hinge-lock", 150);
    ("hinge-handle", 100);
    ("hinge-bolt", 200);
    ("lock-handle", 50);
    ("lock-bolt", 300);
    ("handle-bolt", 200) ]%string.

Fixpoint lookup (table : list (string * R)) (key : string) : option R :=
  match table with
  | [] => None
  | (k, v) :: rest => if String.eqb k key then Some v else lookup rest key
  end.

Definition requiredClearance (item1 item2 : Item) : R :=
  let types := sortTypes (metadata_type item1) (metadata_type item2) in
  let key := (show (fst types) ++ "-" ++ show (snd types))%string in
  Js.orDefault (lookup minClearance key) 100.

(** The body of the two loops, for one pair. *)
Definition checkPair (item1 item2 : Item) : list HardwareConflict :=
  let distance := Vector3.distanceTo (position item1) (position item2) in
  let required := requiredClearance item1 item2 in
  if Rlt_dec distance required then
    [ mkHardwareConflict
        (if Rlt_dec distance (required * 0.5) then overlap else proximity)
        (id item1, id item2)
        distance
        (if Rlt_dec distance (required * 0.5) then error else warning) ]
  else [].

(** The inner loop: [item1] against every later item. *)
Fixpoint checkAgainst (item1 : Item) (later : list Item)
    : list HardwareConflict :=
  match later with
  | [] => []
  | item2 :: rest => checkPair item1 item2 ++ checkAgainst item1 rest
  end.

(** The outer loop. *)
Fixpoint checkAll (allHardware : list Item) : list HardwareConflict :=
  match allHardware with
  | [] => []
  | item1 :: later => checkAgainst item1 later ++ checkAll later
  end.

Definition detectHardwareConflicts (hinges : list Hinge.HingePlacement)
    (lock : option Lock.LockPlacement)
    (handles : option (list Handle.HandlePlacement))
    (bolts : option (list Bolt.BoltPlacement)) : list HardwareConflict :=
  let allHardware :=
    map ofHinge hinges
    ++ match lock with Some l => [ofLock l] | None => [] end
    ++ map ofHandle (Js.orElse handles [])
    ++ map ofBolt (Js.orElse bolts []) in
  checkAll allHardware.

End Conflict.

(** ** Hardware instancing *)

Module Instancing.

(** Modelled from the spec: the type [HardwarePlacement] is not declared;
    the instancing reads its [position], its [rotation] and its
    [metadata.type]. *)
Record HardwarePlacement : Type := mkHardwarePlacement {
  position : Vector3.t;
  rotation : Euler.t;
  metadata_type : string
}.

Module Instance.
Record t : Type := new {
  position : Vector3.t;
  rotation : Euler.t;
  scale : Vector3.t
}.
End Instance.

(** [grouped.get(type).push(placement)], after [grouped.set(type, [])] when
    the map has no entry for [type]; the map keeps its keys in the order of
    their insertion. *)
Fixpoint pushToGroup (grouped : list (string * list HardwarePlacement))
    (type : string) (placement : HardwarePlacement)
    : list (string * list HardwarePlacement) :=
  match grouped with
  | [] => [(type, [placement])]
  | (key, items) :: rest =>
      if String.eqb key type then (key, items ++ [placement]) :: rest
      else (key, items) :: pushToGroup rest type placement
  end.

(** The first loop: group by hardware type. *)
Definition groupByType (placements : list HardwarePlacement)
    : list (string * list HardwarePlacement) :=
  fold_left
    (fun grouped placement =>
       pushToGroup grouped (metadata_type placement) placement)
    placements [].

Section CreateInstancedHardware.

(** The geometries and materials of the renderer are opaque here, and the
    helper that gives the material of a type is taken as given. *)
Variables (BufferGeometry Material : Type).
Variable getHardwareMaterial : string -> Material.

Record InstancedHardware : Type := mkInstancedHardware {
  geometry : BufferGeometry;
  material : Material;
  instances : list Instance.t
}.

Definition toInstance (item : HardwarePlacement) : Instance.t :=
  Instance.new (position item) (rotation item) (Vector3.new 1 1 1).

(** [geometryCache] is a map from type to geometry: [get] gives
    [undefined] for a type that is not cached. *)
Definition createInstancedHardware (placements : list HardwarePlacement)
    (geometryCache : string -> option BufferGeometry)
    : list InstancedHardware :=
  let grouped := groupByType placements in
  fold_left
    (fun instanced entry =>
       let '(type, items) := entry in
       match geometryCache type with
       | None => instanced
       | Some geometry =>
           instanced
           ++ [mkInstancedHardware geometry (getHardwareMaterial type)
                 (map toInstance items)]
       end)
    grouped [].

End CreateInstancedHardware.

End Instancing.

(** * Vocabulary of the properties *)

(** ** Hinge heights *)

(** The height of hinge [k], counted from the bottom, as the loop of the
    vertical distribution computes it. *)
Definition heightAt (hingeCount : Z) (doorHeight topOffset bottomOffset : R)
    (mode : Hinge.DistributionMode) (k : nat) : R :=
  let availableHeight := (doorHeight - topOffset) - bottomOffset in
  match mode with
  | Hinge.even =>
      bottomOffset + availableHeight / IZR (hingeCount - 1) * INR k
  | Hinge.weighted =>
      bottomOffset
      + availableHeight * Js.Math_pow (INR k / IZR (hingeCount - 1)) 0.8
  end.

(** What C2 says of one call in even mode: the heights ascend from
    [bottomOffset] to [doorHeight - topOffset] in equal steps. *)
Definition evenlySpaced (hingeCount : Z) (doorHeight topOffset bottomOffset : R)
    : Prop :=
  exists ys,
    Hinge.calculateHingeYPositions hingeCount doorHeight topOffset
      bottomOffset Hinge.even = Js.Ok ys
    /\ Sorted Rle ys
    /\ hd_error ys = Some bottomOffset
    /\ last ys 0 = doorHeight - topOffset
    /\ (forall k, (S k < List.length ys)%nat ->
          nth (S k) ys 0 - nth k ys 0
          = (doorHeight - topOffset - bottomOffset) / IZR (hingeCount - 1)).

(** ** Hinge placements *)

(** What C1 says of one call: every returned placement has the X of the
    hinge-side edge. *)
Definition hingeXPinned (estimateDoorWeight : Hinge.HingePlacementInput -> R)
    (input : Hinge.HingePlacementInput) : Prop :=
  forall ps,
    Hinge.placeHinges estimateDoorWeight input = Js.Ok ps ->
    Forall
      (fun p =>
         Vector3.x (Hinge.position p)
         = match Hinge.hingeSide input with
           | Left => 0
           | Right => Hinge.doorWidth input
           end)
      ps.

(** The X of a hinge after the adjustment of its type. *)
Definition hingeXAdjusted (input : Hinge.HingePlacementInput) (x : R) : Prop :=
  match Hinge.hingeType input, Hinge.hingeSide input with
  | Hinge.piano, Left => x = 0
  | Hinge.piano, Right => x = Hinge.doorWidth input
  | Hinge.butt, Left => x = - 6
  | Hinge.butt, Right => x = Hinge.doorWidth input + 6
  | Hinge.concealed, Left => x = 5
  | Hinge.concealed, Right =>
      Hinge.doorWidth input <> 0 -> x = Hinge.doorWidth input - 5
  end.

(** What C7 says of one call with concealed hinges: every returned
    placement has the Z of the depth rule, -(leafThickness - 10). *)
Definition concealedZKept (estimateDoorWeight : Hinge.HingePlacementInput -> R)
    (input : Hinge.HingePlacementInput) : Prop :=
  Hinge.hingeType input = Hinge.concealed ->
  forall ps,
    Hinge.placeHinges estimateDoorWeight input = Js.Ok ps ->
    Forall
      (fun p =>
         Vector3.z (Hinge.position p) = - (Hinge.leafThickness input - 10))
      ps.

(** ** Locks, handles and bolts *)

(** A hinge vertically closer than 150mm to the lock. *)
Definition tooCloseTo (lockHeight : R) (hinge : Hinge.HingePlacement) : Prop :=
  Rabs (Vector3.y (Hinge.position hinge) - lockHeight) < 150.

(** The offset of a handle position from the opening edge. *)
Definition offsetFromEdge (edge : Edge) (doorWidth x : R) : R :=
  match edge with
  | Left => x
  | Right => doorWidth - x
  end.

(** What C8 says of the placement returned for one requested position. *)
Definition boltPlacedAt (input : Bolt.BoltPlacementInput)
    (position : Bolt.Position) (p : Bolt.BoltPlacement) : Prop :=
  Vector3.y (Bolt.position p)
  = match position with
    | Bolt.top => Bolt.doorHeight input - Bolt.topOffset input
    | Bolt.bottom => Bolt.bottomOffset input
    end
  /\ Vector3.x (Bolt.position p)
     = match Bolt.meetingEdge input with
       | Left => 40
       | Right => Bolt.doorWidth input - 40
       end
  /\ Vector3.z (Bolt.position p)
     = match Bolt.boltType input with
       | Bolt.flush | Bolt.automatic => - Bolt.leafThickness input / 2
       | Bolt.surface => 0
       end
  /\ Euler.x (Bolt.rotation p) = 0
  /\ Euler.y (Bolt.rotation p) = 0
  /\ Euler.z (Bolt.rotation p)
     = match Bolt.boltType input, position with
       | Bolt.surface, _ => 0
       | _, Bolt.top => 0
       | _, Bolt.bottom => PI
       end.

(** ** Conflicts *)

(** An item whose [metadata.type] holds the kind of the hardware. *)
Definition kindItem (kind : string) (id : string) (position : Vector3.t)
    : Conflict.Item :=
  Conflict.mkItem (Some id) position (Some kind).

(** The clearance that the detector requires between two items of the
    given kinds. *)
Definition requiredForKinds (kind1 kind2 : string) : R :=
  Conflict.requiredClearance
    (kindItem kind1 "a" (Vector3.new 0 0 0))
    (kindItem kind2 "b" (Vector3.new 0 0 0)).

(** The list [allHardware] that the detector builds from its arguments. *)
Definition allHardwareOf (hinges : list Hinge.HingePlacement)
    (lock : option Lock.LockPlacement)
    (handles : option (list Handle.HandlePlacement))
    (bolts : option (list Bolt.BoltPlacement)) : list Conflict.Item :=
  map Conflict.ofHinge hinges
  ++ match lock with Some l => [Conflict.ofLock l] | None => [] end
  ++ map Conflict.ofHandle (Js.orElse handles [])
  ++ map Conflict.ofBolt (Js.orElse bolts []).

(** The two items are typed 'hinge' and 'lock', in either order. *)
Definition hingeAndLock (item1 item2 : Conflict.Item) : Prop :=
  (Conflict.metadata_type item1 = Some "hinge"%string
   /\ Conflict.metadata_type item2 = Some "lock"%string)
  \/ (Conflict.metadata_type item1 = Some "lock"%string
      /\ Conflict.metadata_type item2 = Some "hinge"%string).

(** The conflict that the detector records for a pair that is too close. *)
Definition conflictOf (item1 item2 : Conflict.Item)
    : Conflict.HardwareConflict :=
  let distance :=
    Vector3.distanceTo (Conflict.position item1) (Conflict.position item2) in
  let required := Conflict.requiredClearance item1 item2 in
  Conflict.mkHardwareConflict
    (if Rlt_dec distance (required * 0.5) then Conflict.overlap
     else Conflict.proximity)
    (Conflict.id item1, Conflict.id item2)
    distance
    (if Rlt_dec distance (required * 0.5) then Conflict.error
     else Conflict.warning).

(** ** Double doors *)

(** The same hinge input for the opposing leaf: the hinge side is
    mirrored. *)
Definition mirrorHingeSide (input : Hinge.HingePlacementInput)
    : Hinge.HingePlacementInput :=
  Hinge.mkHingePlacementInput
    (Hinge.doorHeight input) (Hinge.doorWidth input)
    (Hinge.leafThickness input) (Hinge.hingeCount input)
    (Hinge.hingeType input)
    match Hinge.hingeSide input with
    | Left => Right
    | Right => Left
    end
    (Hinge.placementRules input).

(** Two hinges that mirror each other about the middle of a leaf of the
    given width. *)
Definition mirrored (doorWidth : R) (p q : Hinge.HingePlacement) : Prop :=
  Vector3.x (Hinge.position p) + Vector3.x (Hinge.position q) = doorWidth
  /\ Vector3.y (Hinge.position p) = Vector3.y (Hinge.position q)
  /\ Vector3.z (Hinge.position p) = Vector3.z (Hinge.position q)
  /\ Euler.y (Hinge.rotation p) = - Euler.y (Hinge.rotation q).

(** The offsets that the hinge calculator uses for an input. *)
Definition effectiveTopOffset (input : Hinge.HingePlacementInput) : R :=
  Js.orDefault (Hinge.rule input Hinge.topOffset) 150.

Definition effectiveBottomOffset (input : Hinge.HingePlacementInput) : R :=
  Js.orDefault (Hinge.rule input Hinge.bottomOffset) 150.

(** ** Instancing *)

(** The placement has a geometry in the cache. *)
Definition cached {BufferGeometry : Type}
    (geometryCache : string -> option BufferGeometry)
    (placement : Instancing.HardwarePlacement) : bool :=
  match geometryCache (Instancing.metadata_type placement) with
  | Some _ => true
  | None => false
  end.

(** The mesh that the second loop of the instancing adds for one entry of
    the map of groups: none when the type has no cached geometry. *)
Definition meshOf {BufferGeometry Material : Type}
    (getHardwareMaterial : string -> Material)
    (geometryCache : string -> option BufferGeometry)
    (entry : string * list Instancing.HardwarePlacement)
    : list (Instancing.InstancedHardware BufferGeometry Material) :=
  match geometryCache (fst entry) with
  | None => []
  | Some geometry =>
      [Instancing.mkInstancedHardware BufferGeometry Material geometry
         (getHardwareMaterial (fst entry))
         (map Instancing.toInstance (snd entry))]
  end.

(** All the instances of a list of instanced meshes, in order. *)
Definition allInstances {BufferGeometry Material : Type}
    (instanced : list (Instancing.InstancedHardware BufferGeometry Material))
    : list Instancing.Instance.t :=
  flat_map (Instancing.instances BufferGeometry Material) instanced.

(** ** Inputs of the examples *)

(** An estimate of the weight that makes every door a light one. *)
Definition lightDoor (input : Hinge.HingePlacementInput) : R := 40.

Definition buttLeftInput : Hinge.HingePlacementInput :=
  Hinge.mkHingePlacementInput 2000 900 40 2 Hinge.butt Left None.

Definition concealedLeftInput : Hinge.HingePlacementInput :=
  Hinge.mkHingePlacementInput 2000 900 40 2 Hinge.concealed Left None.

Definition pianoRightInput : Hinge.HingePlacementInput :=
  Hinge.mkHingePlacementInput 2200 900 40 3 Hinge.piano Right None.

Definition pianoLeftInput : Hinge.HingePlacementInput :=
  Hinge.mkHingePlacementInput 2000 900 40 2 Hinge.piano Left None.

Definition cylinderLockInput : Lock.LockPlacementInput :=
  Lock.mkLockPlacementInput 2000 900 44 Lock.cylinder 1050 60 Right None.

Definition mortiseLockInput : Lock.LockPlacementInput :=
  Lock.mkLockPlacementInput 2000 900 44 Lock.mortise 1050 60 Right None.

Definition leverWithLockInput : Handle.HandlePlacementInput :=
  Handle.mkHandlePlacementInput 2000 900 44 Handle.lever Handle.modern 1000
    Handle.both (Some 1050) Right.

Definition shortTopOffsetInput : Hinge.HingePlacementInput :=
  Hinge.mkHingePlacementInput 2000 900 40 3 Hinge.butt Left
    (Some (Hinge.mkPlacementRules (Some 50) (Some 150) None)).

Definition flushBoltInput : Bolt.BoltPlacementInput :=
  Bolt.mkBoltPlacementInput 2100 800 44 Bolt.flush [Bolt.top; Bolt.bottom]
    200 200 Right.

Definition lockAt1050 : Lock.LockPlacement :=
  Lock.mkLockPlacement (Some "lock_0"%string) (Vector3.new 60 1050 0)
    (Some "lock"%string).

Definition handleAt1080 : Handle.HandlePlacement :=
  Handle.mkHandlePlacement (Some "handle_exterior"%string)
    (Vector3.new 60 1080 0) (Some "handle"%string).

Definition hingeAt150 : Hinge.HingePlacement :=
  Hinge.mkHingePlacement (Some "hinge_0"%string) (Vector3.new 0 150 0)
    (Hinge.getHingeRotation Left Hinge.butt)
    (Hinge.mkMetadata (Some 0%nat) (Some Hinge.butt) (Some Left) (Some 150)
       None None).

Definition boltAt300 : Bolt.BoltPlacement :=
  Bolt.mkBoltPlacement "bolt_bottom" (Vector3.new 0 300 0)
    (Bolt.calculateBoltRotation Bolt.bottom Bolt.surface)
    (Bolt.Metadata.new Bolt.bottom Bolt.surface).

(** * Properties *)

(** Decide the comparisons on reals that stand in the goal. *)
Ltac decide_reals :=
  repeat match goal with
    | |- context [Rlt_dec ?a ?b] => destruct (Rlt_dec a b); try lra
    | |- context [Rgt_dec ?a ?b] => destruct (Rgt_dec a b); try lra
    | |- context [Rle_dec ?a ?b] => destruct (Rle_dec a b); try lra
    | |- context [Req_dec_T ?a ?b] => destruct (Req_dec_T a b); try lra
    end.

(** Evaluate a call on concrete numbers. *)
Ltac js_eval := repeat (simpl; decide_reals).

(** ** The sort and the loop of the vertical distribution *)

Section VerticalDistribution.

Import Js.

Lemma sort_insert_length (cmp : R -> R -> R) (a : R) (l : list R) :
  List.length (sort_insert cmp a l) = S (List.length l).
Proof.
  induction l as [|b l IH]; simpl; [reflexivity|].
  destruct (Rle_dec (cmp a b) 0); simpl; [reflexivity|].
  now rewrite IH.
Qed.

Lemma sort_length (cmp : R -> R -> R) (l : list R) :
  List.length (sort cmp l) = List.length l.
Proof.
  induction l as [|a l IH]; simpl; [reflexivity|].
  now rewrite sort_insert_length, IH.
Qed.

(** Sorting an ascending list with the numeric comparator changes
    nothing. *)
Lemma sort_sorted (l : list R) :
  Sorted Rle l -> sort (fun a b => a - b) l = l.
Proof.
  induction l as [|a l IH]; intros Hs; simpl; [reflexivity|].
  inversion Hs as [|? ? Htl Hhd]; subst.
  rewrite (IH Htl).
  destruct l as [|b l]; simpl; [reflexivity|].
  inversion Hhd; subst.
  destruct (Rle_dec (a - b) 0); [reflexivity | lra].
Qed.

(** The splicing loop puts the middle values, in order, between the two
    ends. *)
Lemma splice_loop (f : nat -> R) (first last : R) (m : nat) :
  fold_left (fun positions i => splice positions i (f i)) (seq 1 m)
    [first; last]
  = first :: map f (seq 1 m) ++ [last].
Proof.
  induction m as [|m IH]; [reflexivity|].
  rewrite seq_S, fold_left_app, IH, map_app. simpl.
  unfold splice. simpl. f_equal.
  assert (Hlen : List.length (map f (seq 1 m)) = m)
    by now rewrite length_map, length_seq.
  rewrite firstn_app, skipn_app, Hlen, Nat.sub_diag. simpl.
  rewrite firstn_all2, skipn_all2 by lia.
  now rewrite app_nil_r, <- app_assoc.
Qed.

(** A list of values of a function that does not decrease is ascending. *)
Lemma map_seq_sorted (g : nat -> R) (len start : nat) :
  (forall k, (start <= k)%nat -> (S k < start + len)%nat -> g k <= g (S k)) ->
  Sorted Rle (map g (seq start len)).
Proof.
  revert start. induction len as [|len IH]; intros start Hg; simpl.
  - constructor.
  - constructor.
    + apply IH. intros k Hk1 Hk2. apply Hg; lia.
    + destruct len as [|len]; simpl; constructor.
      apply Hg; lia.
Qed.

End VerticalDistribution.

(** ** Closed form of the hinge heights *)

Section HingeHeights.

Import Js Hinge.

Variables (hingeCount : Z) (doorHeight topOffset bottomOffset : R).

Local Abbreviation heightAt :=
  (heightAt hingeCount doorHeight topOffset bottomOffset).
Local Abbreviation middleCount := (Z.to_nat (hingeCount - 2)).

Lemma Math_pow_0 (e : R) : Math_pow 0 e = 0.
Proof. unfold Math_pow. decide_reals. Qed.

Lemma Math_pow_1 (e : R) : Math_pow 1 e = 1.
Proof.
  unfold Math_pow. decide_reals.
  unfold Rpower. now rewrite ln_1, Rmult_0_r, exp_0.
Qed.

Lemma Math_pow_nonneg (t e : R) : 0 <= Math_pow t e.
Proof.
  unfold Math_pow. decide_reals.
  unfold Rpower. left. apply exp_pos.
Qed.

Lemma Math_pow_increasing (a b e : R) :
  0 < e -> 0 <= a < b -> Math_pow a e < Math_pow b e.
Proof.
  intros He [Ha Hab]. unfold Math_pow.
  destruct (Rlt_dec 0 b); [|lra].
  destruct (Rlt_dec 0 a).
  - apply Rlt_Rpower_l; lra.
  - unfold Rpower. apply exp_pos.
Qed.

Hypothesis count_ge_2 : (2 <= hingeCount)%Z.

Lemma INR_last_index : INR (S middleCount) = IZR (hingeCount - 1).
Proof.
  rewrite INR_IZR_INZ. f_equal. lia.
Qed.

Lemma intervals_positive : 0 < IZR (hingeCount - 1).
Proof. apply IZR_lt. lia. Qed.

Lemma heightAt_first (mode : DistributionMode) :
  heightAt mode 0 = bottomOffset.
Proof.
  unfold heightAt. destruct mode; simpl INR.
  - lra.
  - unfold Rdiv. rewrite Rmult_0_l, Math_pow_0. lra.
Qed.

Lemma heightAt_last (mode : DistributionMode) :
  heightAt mode (S middleCount) = doorHeight - topOffset.
Proof.
  pose proof intervals_positive as Hpos.
  unfold heightAt. rewrite INR_last_index. destruct mode.
  - field. lra.
  - replace (IZR (hingeCount - 1) / IZR (hingeCount - 1)) with 1
      by (field; lra).
    rewrite Math_pow_1. lra.
Qed.

(** Consecutive heights: the height does not decrease when the span
    between the two ends is not negative, and it grows when the span is
    positive. *)
Lemma heightAt_step (mode : DistributionMode) (k : nat) :
  bottomOffset <= doorHeight - topOffset ->
  heightAt mode k <= heightAt mode (S k).
Proof.
  intros Hspan. pose proof intervals_positive as Hpos.
  pose proof (pos_INR k) as Hk.
  unfold heightAt. rewrite S_INR. destruct mode.
  - assert (0 <= (doorHeight - topOffset - bottomOffset)
                   / IZR (hingeCount - 1))
      by (apply Rmult_le_pos; [lra | left; now apply Rinv_0_lt_compat]).
    nra.
  - assert (Math_pow (INR k / IZR (hingeCount - 1)) 0.8
            < Math_pow ((INR k + 1) / IZR (hingeCount - 1)) 0.8).
    { apply Math_pow_increasing; [lra|]. split.
      - apply Rmult_le_pos; [lra | left; now apply Rinv_0_lt_compat].
      - apply Rmult_lt_compat_r; [now apply Rinv_0_lt_compat | lra]. }
    nra.
Qed.

Lemma heightAt_step_strict (mode : DistributionMode) (k : nat) :
  bottomOffset < doorHeight - topOffset ->
  heightAt mode k < heightAt mode (S k).
Proof.
  intros Hspan. pose proof intervals_positive as Hpos.
  pose proof (pos_INR k) as Hk.
  unfold heightAt. rewrite S_INR. destruct mode.
  - assert (0 < (doorHeight - topOffset - bottomOffset)
                  / IZR (hingeCount - 1))
      by (apply Rmult_lt_0_compat; [lra | now apply Rinv_0_lt_compat]).
    nra.
  - assert (Math_pow (INR k / IZR (hingeCount - 1)) 0.8
            < Math_pow ((INR k + 1) / IZR (hingeCount - 1)) 0.8).
    { apply Math_pow_increasing; [lra|]. split.
      - apply Rmult_le_pos; [lra | left; now apply Rinv_0_lt_compat].
      - apply Rmult_lt_compat_r; [now apply Rinv_0_lt_compat | lra]. }
    nra.
Qed.

Lemma heightAt_lt (mode : DistributionMode) (j k : nat) :
  bottomOffset < doorHeight - topOffset ->
  (j < k)%nat -> heightAt mode j < heightAt mode k.
Proof.
  intros Hspan Hjk. induction Hjk as [|k Hjk IH].
  - now apply heightAt_step_strict.
  - eapply Rlt_trans; [exact IH | now apply heightAt_step_strict].
Qed.

(** The list handed to the final sort. *)
Lemma positions_before_sort (mode : DistributionMode) :
  (hingeCount =? 2)%Z = false ->
  calculateHingeYPositions hingeCount doorHeight topOffset bottomOffset mode
  = Ok (sort (fun a b => a - b)
          (map (heightAt mode) (seq 0 (S (S middleCount))))).
Proof.
  intros Hne. unfold calculateHingeYPositions.
  destruct (Z.ltb_spec hingeCount 2) as [Hlt|_]; [lia|].
  rewrite Hne. do 2 f_equal.
  rewrite seq_S, map_app. simpl.
  rewrite heightAt_first.
  change (heightAt mode (S middleCount) :: nil)
    with [heightAt mode (S middleCount)].
  rewrite heightAt_last.
  destruct mode.
  - now rewrite (splice_loop (heightAt even)).
  - now rewrite (splice_loop (heightAt weighted)).
Qed.

(** When the span between the two ends is not negative the calculation
    returns the closed form, one height per hinge. *)
Lemma calculateHingeYPositions_closed (mode : DistributionMode) :
  bottomOffset <= doorHeight - topOffset ->
  calculateHingeYPositions hingeCount doorHeight topOffset bottomOffset mode
  = Ok (map (heightAt mode) (seq 0 (Z.to_nat hingeCount))).
Proof.
  intros Hspan.
  replace (Z.to_nat hingeCount) with (S (S middleCount)) by lia.
  destruct (Z.eqb_spec hingeCount 2) as [Heq|Hne].
  - unfold calculateHingeYPositions.
    destruct (Z.ltb_spec hingeCount 2) as [Hlt|_]; [lia|].
    destruct (Z.eqb_spec hingeCount 2) as [_|Hne]; [|lia].
    assert (Hm : middleCount = 0%nat) by lia.
    f_equal. rewrite Hm. simpl map.
    rewrite heightAt_first.
    rewrite <- Hm, heightAt_last. reflexivity.
  - rewrite positions_before_sort by now apply Z.eqb_neq.
    f_equal. apply sort_sorted. apply map_seq_sorted.
    intros k _ _. now apply heightAt_step.
Qed.

End HingeHeights.

(** ** Reading a list of values of a function *)

Lemma nth_map_seq (g : nat -> R) (len k : nat) (d : R) :
  (k < len)%nat -> nth k (map g (seq 0 len)) d = g k.
Proof.
  intros Hk.
  rewrite (nth_indep _ d (g 0%nat)) by now rewrite length_map, length_seq.
  rewrite map_nth, seq_nth by assumption. reflexivity.
Qed.

Lemma last_map_seq (g : nat -> R) (len : nat) (d : R) :
  last (map g (seq 0 (S len))) d = g len.
Proof.
  rewrite seq_S, map_app. simpl. apply last_last.
Qed.

(** ** The vertical distribution of the hinges *)

(** C2, as stated, fails: with three hinges on a door of 2000mm, a top
    offset of 1200mm and a bottom offset of 1000mm the top end (800) lies
    below the bottom end (1000), the final sort reverses the list
    [1000; 900; 800], and the first height is 800, not [bottomOffset]. *)
Lemma C2_counterexample : ~ evenlySpaced 3 2000 1200 1000.
Proof.
  assert (Hval : Hinge.calculateHingeYPositions 3 2000 1200 1000 Hinge.even
                 = Js.Ok [2000 - 1200;
                          1000 + (2000 - 1200 - 1000) / 2 * 1;
                          1000]).
  { unfold Hinge.calculateHingeYPositions, Js.splice. js_eval. reflexivity. }
  intros (ys & Hcalc & _ & Hhd & _).
  rewrite Hval in Hcalc. injection Hcalc as <-.
  simpl in Hhd. injection Hhd as Hhd. lra.
Qed.

(** C2 (amended): for every hinge count n >= 2 in even mode, when the top
    end [doorHeight - topOffset] is not below [bottomOffset], the returned
    heights ascend, start at [bottomOffset], end at
    [doorHeight - topOffset], and consecutive heights differ by
    (doorHeight - topOffset - bottomOffset) / (n - 1); three hinges on a
    door of 2400mm with offsets of 150mm are at 150, 1200 and 2250. *)
Theorem C2_even_spacing (hingeCount : Z)
    (doorHeight topOffset bottomOffset : R) :
  (2 <= hingeCount)%Z ->
  bottomOffset <= doorHeight - topOffset ->
  evenlySpaced hingeCount doorHeight topOffset bottomOffset
  /\ Hinge.calculateHingeYPositions 3 2400 150 150 Hinge.even
     = Js.Ok [150; 1200; 2250].
Proof.
  intros Hn Hspan. split.
  - exists (map (heightAt hingeCount doorHeight topOffset bottomOffset
                   Hinge.even) (seq 0 (Z.to_nat hingeCount))).
    destruct (Z.to_nat hingeCount) as [|[|m]] eqn:Hlen; try lia.
    assert (Hm : m = Z.to_nat (hingeCount - 2)) by lia.
    repeat split.
    + rewrite <- Hlen. now apply calculateHingeYPositions_closed.
    + apply map_seq_sorted. intros k _ _. now apply heightAt_step.
    + cbn [map seq hd_error]. f_equal. now apply heightAt_first.
    + rewrite last_map_seq, Hm. now apply heightAt_last.
    + intros k Hk. rewrite length_map, length_seq in Hk.
      rewrite !nth_map_seq by lia.
      unfold heightAt. rewrite S_INR. lra.
  - rewrite calculateHingeYPositions_closed by (try lia; lra).
    simpl. unfold heightAt. simpl. repeat f_equal; lra.
Qed.

Lemma C2_even_spacing_witness :
  (2 <= 4)%Z /\ 180 <= 2100 - 200
  /\ evenlySpaced 4 2100 200 180.
Proof.
  split; [lia|]. split; [lra|].
  apply (C2_even_spacing 4 2100 200 180); [lia | lra].
Defined.

(** C10: for every hinge count n >= 2 and offsets with
    topOffset + bottomOffset < doorHeight, in even and in weighted mode,
    the calculation returns n heights, strictly ascending, the first equal
    to [bottomOffset], the last equal to [doorHeight - topOffset], and every
    height in between strictly between the two. *)
Theorem C10_positions_ordered (hingeCount : Z)
    (doorHeight topOffset bottomOffset : R) (mode : Hinge.DistributionMode) :
  (2 <= hingeCount)%Z ->
  topOffset + bottomOffset < doorHeight ->
  exists ys,
    Hinge.calculateHingeYPositions hingeCount doorHeight topOffset
      bottomOffset mode = Js.Ok ys
    /\ Z.of_nat (List.length ys) = hingeCount
    /\ Sorted Rlt ys
    /\ hd_error ys = Some bottomOffset
    /\ last ys 0 = doorHeight - topOffset
    /\ (forall k, (0 < k)%nat -> (S k < List.length ys)%nat ->
          bottomOffset < nth k ys 0 < doorHeight - topOffset).
Proof.
  intros Hn Hsum.
  assert (Hspan : bottomOffset < doorHeight - topOffset) by lra.
  exists (map (heightAt hingeCount doorHeight topOffset bottomOffset mode)
            (seq 0 (Z.to_nat hingeCount))).
  destruct (Z.to_nat hingeCount) as [|[|m]] eqn:Hlen; try lia.
  assert (Hm : m = Z.to_nat (hingeCount - 2)) by lia.
  repeat match goal with |- _ /\ _ => split end;
    [| | | | | intros k H H0; split].
  - rewrite <- Hlen. apply calculateHingeYPositions_closed; [assumption|lra].
  - rewrite length_map, length_seq. lia.
  - clear Hlen Hm. generalize (S (S m)) as len, 0%nat as start.
    induction len as [|len IH]; intros start; simpl; constructor.
    + apply IH.
    + destruct len; simpl; constructor.
      now apply heightAt_step_strict.
  - cbn [map seq hd_error]. f_equal. now apply heightAt_first.
  - rewrite last_map_seq, Hm. now apply heightAt_last.
  - rewrite length_map, length_seq in H0. rewrite nth_map_seq by lia.
    pose proof (heightAt_lt hingeCount doorHeight topOffset bottomOffset Hn
                  mode 0 k Hspan H) as Hlt.
    now rewrite heightAt_first in Hlt.
  - rewrite length_map, length_seq in H0. rewrite nth_map_seq by lia.
    assert (Hk : (k < S m)%nat) by lia.
    pose proof (heightAt_lt hingeCount doorHeight topOffset bottomOffset Hn
                  mode k (S m) Hspan Hk) as Hlt.
    rewrite Hm in Hlt. now rewrite heightAt_last in Hlt.
Qed.

Lemma C10_positions_ordered_witness :
  (2 <= 3)%Z /\ 150 + 150 < 2400
  /\ exists ys,
       Hinge.calculateHingeYPositions 3 2400 150 150 Hinge.weighted = Js.Ok ys
       /\ Z.of_nat (List.length ys) = 3%Z
       /\ Sorted Rlt ys
       /\ hd_error ys = Some 150
       /\ last ys 0 = 2400 - 150
       /\ (forall k, (0 < k)%nat -> (S k < List.length ys)%nat ->
             150 < nth k ys 0 < 2400 - 150).
Proof.
  split; [lia|]. split; [lra|].
  apply (C10_positions_ordered 3 2400 150 150 Hinge.weighted); [lia | lra].
Defined.

(** ** The hinge calculator *)

Section PlaceHingesFacts.

Import Js Hinge.

Variable estimateDoorWeight : HingePlacementInput -> R.

Lemma buildPlacements_Forall (P : HingePlacement -> Prop)
    (input : HingePlacementInput) (xPos zPos : R) (rotation : Euler.t) :
  (forall i y, P (buildPlacement input xPos zPos rotation i y)) ->
  forall ys i, Forall P (buildPlacements input xPos zPos rotation i ys).
Proof.
  intros HP ys. induction ys as [|y ys IH]; intros i; simpl; constructor.
  - apply HP.
  - apply IH.
Qed.

Lemma buildPlacements_length (input : HingePlacementInput) (xPos zPos : R)
    (rotation : Euler.t) (ys : list R) (i : nat) :
  List.length (buildPlacements input xPos zPos rotation i ys)
  = List.length ys.
Proof.
  revert i. induction ys as [|y ys IH]; intros i; simpl; [reflexivity|].
  now rewrite IH.
Qed.

Lemma calculateHingeYPositions_length (n : Z) (h top bot : R)
    (mode : DistributionMode) (ys : list R) :
  calculateHingeYPositions n h top bot mode = Ok ys ->
  Z.of_nat (List.length ys) = n.
Proof.
  destruct (Z.ltb_spec n 2) as [Hlt|Hge].
  - unfold calculateHingeYPositions.
    destruct (Z.ltb_spec n 2); [discriminate | lia].
  - destruct (Z.eqb_spec n 2) as [Heq|Hne].
    + unfold calculateHingeYPositions.
      destruct (Z.ltb_spec n 2); [lia|].
      destruct (Z.eqb_spec n 2); [|lia].
      intros [= <-]. simpl. lia.
    + rewrite positions_before_sort by (try lia; now apply Z.eqb_neq).
      intros Hys.
      assert (Hl : forall l : list R,
                 Ok (E := Error) l = Ok ys -> List.length l = List.length ys)
        by (intros l [= ->]; reflexivity).
      apply Hl in Hys.
      rewrite sort_length, length_map, length_seq in Hys. lia.
Qed.

(** What a successful call returned: the piano placement alone, or one
    placement per computed height. *)
Lemma placeHinges_Ok (input : HingePlacementInput)
    (ps : list HingePlacement) :
  placeHinges estimateDoorWeight input = Ok ps ->
  validateHingeCount (doorHeight input) (estimateDoorWeight input)
    (hingeCount input) = Valid
  /\ match hingeType input with
     | piano =>
         ps = [calculatePianoHingePlacement (doorHeight input)
                 (doorWidth input) (hingeSide input)
                 (mkPianoHingeParams 30 true)]
     | _ =>
         exists ys,
           calculateHingeYPositions (hingeCount input) (doorHeight input)
             (orDefault (rule input topOffset) 150)
             (orDefault (rule input bottomOffset) 150)
             (orElse (rule input distributionMode) even) = Ok ys
           /\ ps = buildPlacements input
                     (getHingeXPosition (hingeSide input) (doorWidth input))
                     (getHingeZPosition (hingeType input)
                        (leafThickness input))
                     (getHingeRotation (hingeSide input) (hingeType input))
                     0 ys
     end.
Proof.
  unfold placeHinges.
  destruct (validateHingeCount _ _ _); [|discriminate].
  intros Hps. split; [reflexivity|].
  destruct (hingeType input).
  - destruct (calculateHingeYPositions _ _ _ _ _) as [ys|]; [|discriminate].
    injection Hps as <-. now exists ys.
  - destruct (calculateHingeYPositions _ _ _ _ _) as [ys|]; [|discriminate].
    injection Hps as <-. now exists ys.
  - now injection Hps as <-.
Qed.

(** The count validation accepts no count below two. *)
Lemma validateHingeCount_Valid (h w : R) (n : Z) :
  validateHingeCount h w n = Valid -> (2 <= n)%Z.
Proof.
  unfold validateHingeCount.
  destruct (Rgt_dec h 2100), (Rgt_dec w 50), (Rgt_dec w 80);
    match goal with
    | |- context [(n <? ?m)%Z] =>
        destruct (Z.ltb_spec n m); [discriminate | lia]
    end.
Qed.

(** The only error of the hinge calculator is the one of the count
    validation: no offset is ever rejected. *)
Lemma placeHinges_Throw (input : HingePlacementInput) (e : Error) :
  placeHinges estimateDoorWeight input = Throw e ->
  exists m h w, e = MinimumHingeCount m h w.
Proof.
  unfold placeHinges.
  destruct (validateHingeCount _ _ _) as [|e'] eqn:Hv.
  - apply validateHingeCount_Valid in Hv.
    assert (Hcalc : forall top bot mode,
               exists ys,
                 calculateHingeYPositions (hingeCount input)
                   (doorHeight input) top bot mode = Ok ys).
    { intros top bot mode. unfold calculateHingeYPositions.
      destruct (Z.ltb_spec (hingeCount input) 2); [lia|].
      destruct (hingeCount input =? 2)%Z; eexists; reflexivity. }
    destruct (hingeType input); try discriminate;
      match goal with
      | |- context [calculateHingeYPositions ?n ?h ?t ?b ?m] =>
          destruct (Hcalc t b m) as [ys ->]; discriminate
      end.
  - intros [= <-]. revert Hv. unfold validateHingeCount.
    match goal with
    | |- context [(hingeCount input <? ?m)%Z] =>
        destruct (hingeCount input <? m)%Z; [|discriminate]
    end.
    intros [= <-]. eauto.
Qed.

End PlaceHingesFacts.

(** ** Hinge X and Z after the type-specific adjustment *)

Lemma placeHinges_buttLeftInput :
  Hinge.placeHinges lightDoor buttLeftInput
  = Js.Ok
      (Hinge.buildPlacements buttLeftInput 0 0
         (Hinge.getHingeRotation Left Hinge.butt) 0 [150; 2000 - 150]).
Proof.
  unfold Hinge.placeHinges, Hinge.validateHingeCount, lightDoor.
  js_eval. reflexivity.
Qed.

(** C1, as stated, fails: the butt hinges of a left-hinged door are moved
    by half the barrel diameter and sit at X = -6, not at X = 0. *)
Lemma C1_counterexample : ~ hingeXPinned lightDoor buttLeftInput.
Proof.
  intros Hclaim.
  specialize (Hclaim _ placeHinges_buttLeftInput).
  inversion Hclaim as [|p ps Hx _]; subst.
  simpl in Hx. lra.
Qed.

(** C1 (amended): for every input accepted by the validation, the X of
    every returned placement is the X of the hinge-side edge (0 for left,
    doorWidth for right) moved by the adjustment of the hinge type: none for
    a piano hinge, half the barrel diameter (6mm) outwards for a butt hinge
    (-6 and doorWidth + 6), the edge inset (5mm) inwards for a concealed
    hinge (5 and, on a door of width other than 0, doorWidth - 5). *)
Theorem C1_hinge_x_adjusted
    (estimateDoorWeight : Hinge.HingePlacementInput -> R)
    (input : Hinge.HingePlacementInput) (ps : list Hinge.HingePlacement) :
  Hinge.placeHinges estimateDoorWeight input = Js.Ok ps ->
  Forall (fun p => hingeXAdjusted input (Vector3.x (Hinge.position p))) ps.
Proof.
  intros Hps. apply placeHinges_Ok in Hps as [_ Hps].
  unfold hingeXAdjusted.
  destruct (Hinge.hingeType input) eqn:Htype.
  - destruct Hps as (ys & _ & ->). apply buildPlacements_Forall.
    intros i y. unfold Hinge.buildPlacement, Hinge.applyTypeAdjustments.
    rewrite Htype. destruct (Hinge.hingeSide input); simpl; lra.
  - destruct Hps as (ys & _ & ->). apply buildPlacements_Forall.
    intros i y. unfold Hinge.buildPlacement, Hinge.applyTypeAdjustments.
    rewrite Htype. destruct (Hinge.hingeSide input); simpl.
    + decide_reals.
    + intros Hw. decide_reals.
  - subst ps. constructor; [|constructor].
    destruct (Hinge.hingeSide input); reflexivity.
Qed.

Lemma C1_hinge_x_adjusted_witness :
  Forall (fun p => Vector3.x (Hinge.position p) = - 6)
    (Hinge.buildPlacements buttLeftInput 0 0
       (Hinge.getHingeRotation Left Hinge.butt) 0 [150; 2000 - 150]).
Proof.
  exact (C1_hinge_x_adjusted lightDoor buttLeftInput _
           placeHinges_buttLeftInput).
Defined.

Lemma placeHinges_concealedLeftInput :
  Hinge.placeHinges lightDoor concealedLeftInput
  = Js.Ok
      (Hinge.buildPlacements concealedLeftInput 0 (- (40 - 10))
         (Hinge.getHingeRotation Left Hinge.concealed) 0 [150; 2000 - 150]).
Proof.
  unfold Hinge.placeHinges, Hinge.validateHingeCount, lightDoor.
  js_eval. reflexivity.
Qed.

(** C7, as stated, fails: on a leaf of 40mm the concealed hinges end at
    Z = -6, half the cup depth, not at Z = -30. *)
Lemma C7_counterexample : ~ concealedZKept lightDoor concealedLeftInput.
Proof.
  intros Hclaim.
  specialize (Hclaim eq_refl _ placeHinges_concealedLeftInput).
  inversion Hclaim as [|p ps Hz _]; subst.
  simpl in Hz. lra.
Qed.

(** C7 (amended): for every accepted input with concealed hinges the depth
    rule gives the base Z = -(leafThickness - 10), and the adjustment of
    the concealed hinge replaces it: each of the hingeCount returned
    placements has the final Z = -6, half the cup depth of 12mm. *)
Theorem C7_concealed_z
    (estimateDoorWeight : Hinge.HingePlacementInput -> R)
    (input : Hinge.HingePlacementInput) (ps : list Hinge.HingePlacement) :
  Hinge.hingeType input = Hinge.concealed ->
  Hinge.placeHinges estimateDoorWeight input = Js.Ok ps ->
  Hinge.getHingeZPosition (Hinge.hingeType input) (Hinge.leafThickness input)
  = - (Hinge.leafThickness input - 10)
  /\ Z.of_nat (List.length ps) = Hinge.hingeCount input
  /\ Forall (fun p => Vector3.z (Hinge.position p) = - 6) ps.
Proof.
  intros Htype Hps. apply placeHinges_Ok in Hps as [_ Hps].
  rewrite Htype in *. destruct Hps as (ys & Hys & ->).
  split; [reflexivity|]. split.
  - rewrite buildPlacements_length.
    now apply calculateHingeYPositions_length in Hys.
  - apply buildPlacements_Forall. intros i y.
    unfold Hinge.buildPlacement, Hinge.applyTypeAdjustments.
    rewrite Htype. simpl. lra.
Qed.

Lemma C7_concealed_z_witness :
  Hinge.hingeType concealedLeftInput = Hinge.concealed
  /\ Forall (fun p => Vector3.z (Hinge.position p) = - 6)
       (Hinge.buildPlacements concealedLeftInput 0 (- (40 - 10))
          (Hinge.getHingeRotation Left Hinge.concealed) 0 [150; 2000 - 150]).
Proof.
  split; [reflexivity|].
  exact (proj2 (proj2 (C7_concealed_z lightDoor concealedLeftInput _ eq_refl
                         placeHinges_concealedLeftInput))).
Defined.

(** ** The piano hinge *)

(** C9: for every input with a piano hinge that the count validation
    accepts, the calculator returns exactly one placement, at the X of the
    hinge-side edge, Y = doorHeight / 2 and Z = 0, whose metadata carries
    length = doorHeight.  The rest of the output contract is not met: the
    placement has no id, and its metadata has no index, type, side or
    yPosition. *)
Theorem C9_piano_placement
    (estimateDoorWeight : Hinge.HingePlacementInput -> R)
    (input : Hinge.HingePlacementInput) :
  Hinge.hingeType input = Hinge.piano ->
  Hinge.validateHingeCount (Hinge.doorHeight input)
    (estimateDoorWeight input) (Hinge.hingeCount input) = Valid ->
  exists p,
    Hinge.placeHinges estimateDoorWeight input = Js.Ok [p]
    /\ Hinge.position p
       = Vector3.new
           (Hinge.getHingeXPosition (Hinge.hingeSide input)
              (Hinge.doorWidth input))
           (Hinge.doorHeight input / 2) 0
    /\ Hinge.length (Hinge.metadata p) = Some (Hinge.doorHeight input)
    /\ Hinge.id p = None
    /\ Hinge.index (Hinge.metadata p) = None
    /\ Hinge.type (Hinge.metadata p) = None
    /\ Hinge.side (Hinge.metadata p) = None
    /\ Hinge.yPosition (Hinge.metadata p) = None.
Proof.
  intros Htype Hvalid. eexists.
  unfold Hinge.placeHinges. rewrite Hvalid, Htype.
  split; [reflexivity|]. simpl.
  destruct (Hinge.hingeSide input); repeat split; reflexivity.
Qed.

Lemma C9_piano_placement_witness :
  Hinge.hingeType pianoRightInput = Hinge.piano
  /\ Hinge.validateHingeCount 2200 (lightDoor pianoRightInput) 3 = Valid
  /\ exists p,
       Hinge.placeHinges lightDoor pianoRightInput = Js.Ok [p]
       /\ Hinge.position p = Vector3.new 900 (2200 / 2) 0
       /\ Hinge.length (Hinge.metadata p) = Some 2200
       /\ Hinge.id p = None
       /\ Hinge.index (Hinge.metadata p) = None
       /\ Hinge.type (Hinge.metadata p) = None
       /\ Hinge.side (Hinge.metadata p) = None
       /\ Hinge.yPosition (Hinge.metadata p) = None.
Proof.
  assert (Hvalid : Hinge.validateHingeCount 2200 (lightDoor pianoRightInput) 3
                   = Valid)
    by (unfold Hinge.validateHingeCount, lightDoor; js_eval; reflexivity).
  split; [reflexivity|]. split; [exact Hvalid|].
  exact (C9_piano_placement lightDoor pianoRightInput eq_refl Hvalid).
Defined.

(** ** The offsets of the hinges *)

(** The offset validation rejects each of the three cases of C6. *)
Lemma validateOffsets_rejects (doorHeight topOffset bottomOffset : R)
    (hingeCount : Z) :
  topOffset < 100 \/ bottomOffset < 100
  \/ doorHeight - topOffset - bottomOffset < IZR (hingeCount - 2) * 150 ->
  valid (Hinge.validateOffsets doorHeight topOffset bottomOffset hingeCount)
  = false.
Proof.
  intros Hcase. unfold Hinge.validateOffsets.
  destruct (Rlt_dec topOffset 100); [reflexivity|].
  destruct (Rlt_dec bottomOffset 100); [reflexivity|].
  destruct (Rlt_dec _ _); [reflexivity | lra].
Qed.

(** C6 fails on the code: the offset validation rejects a top offset of
    50mm, but the hinge calculator never runs it; for a door that needs no
    more than three hinges it returns the three placements, the top one at
    Y = 1950. *)
Theorem C6_offsets_not_validated
    (estimateDoorWeight : Hinge.HingePlacementInput -> R) :
  estimateDoorWeight shortTopOffsetInput <= 80 ->
  Hinge.validateOffsets 2000 50 150 3 = Invalid Hinge.TopOffsetTooSmall
  /\ exists ps,
       Hinge.placeHinges estimateDoorWeight shortTopOffsetInput = Js.Ok ps
       /\ map (fun p => Vector3.y (Hinge.position p)) ps
          = [150; 150 + (2000 - 50 - 150) / 2 * 1; 2000 - 50].
Proof.
  intros Hweight. split.
  - unfold Hinge.validateOffsets. js_eval. reflexivity.
  - assert (Hys : Hinge.calculateHingeYPositions 3 2000 50 150 Hinge.even
                  = Js.Ok [150; 150 + (2000 - 50 - 150) / 2 * 1; 2000 - 50]).
    { unfold Hinge.calculateHingeYPositions, Js.splice. js_eval.
      reflexivity. }
    assert (Hvalid : Hinge.validateHingeCount 2000
                       (estimateDoorWeight shortTopOffsetInput) 3 = Valid).
    { unfold Hinge.validateHingeCount.
      destruct (Rgt_dec 2000 2100); [lra|].
      destruct (Rgt_dec _ 50), (Rgt_dec _ 80); try lra; reflexivity. }
    eexists. unfold Hinge.placeHinges.
    change (Hinge.doorHeight shortTopOffsetInput) with 2000.
    change (Hinge.hingeCount shortTopOffsetInput) with 3%Z.
    rewrite Hvalid.
    change (Hinge.hingeType shortTopOffsetInput) with Hinge.butt.
    cbv iota.
    replace (Js.orDefault (Hinge.rule shortTopOffsetInput Hinge.topOffset) 150)
      with 50 by (simpl; decide_reals).
    replace (Js.orDefault (Hinge.rule shortTopOffsetInput Hinge.bottomOffset)
               150)
      with 150 by (simpl; decide_reals).
    change (Js.orElse (Hinge.rule shortTopOffsetInput Hinge.distributionMode)
              Hinge.even) with Hinge.even.
    rewrite Hys. split; [reflexivity|].
    simpl. f_equal; [lra|]. f_equal; [lra|]. f_equal. lra.
Qed.

Lemma C6_offsets_not_validated_witness :
  lightDoor shortTopOffsetInput <= 80
  /\ Hinge.validateOffsets 2000 50 150 3 = Invalid Hinge.TopOffsetTooSmall
  /\ exists ps,
       Hinge.placeHinges lightDoor shortTopOffsetInput = Js.Ok ps
       /\ map (fun p => Vector3.y (Hinge.position p)) ps
          = [150; 150 + (2000 - 50 - 150) / 2 * 1; 2000 - 50].
Proof.
  assert (Hweight : lightDoor shortTopOffsetInput <= 80)
    by (unfold lightDoor; lra).
  split; [exact Hweight|].
  exact (C6_offsets_not_validated lightDoor Hweight).
Defined.

(** ** The lock validator *)

Section LockValidation.

Import Lock.

Lemma hingeConflict_None (lockHeight : R)
    (hinges : list Hinge.HingePlacement) :
  hingeConflict lockHeight hinges = None
  <-> Forall (fun h => ~ tooCloseTo lockHeight h) hinges.
Proof.
  unfold tooCloseTo.
  induction hinges as [|h hinges IH]; simpl.
  - split; [constructor | reflexivity].
  - destruct (Rlt_dec _ 150) as [Hlt|Hge].
    + split; [discriminate|]. intros Hall. inversion Hall; subst.
      contradiction.
    + rewrite IH. split.
      * now constructor.
      * intros Hall. now inversion Hall.
Qed.

Lemma hingeConflict_Some (lockHeight : R)
    (hinges : list Hinge.HingePlacement) (e : Error) :
  hingeConflict lockHeight hinges = Some e ->
  exists h,
    In h hinges /\ tooCloseTo lockHeight h
    /\ e = HingeProximityViolation (Vector3.y (Hinge.position h)).
Proof.
  unfold tooCloseTo.
  induction hinges as [|h hinges IH]; simpl; [discriminate|].
  destruct (Rlt_dec _ 150) as [Hlt|Hge].
  - intros [= <-]. exists h. auto.
  - intros He. destruct (IH He) as (h' & Hin & Hclose & ->).
    exists h'. auto.
Qed.

Lemma hingeConflict_Exists (lockHeight : R)
    (hinges : list Hinge.HingePlacement) :
  Exists (tooCloseTo lockHeight) hinges ->
  exists y, hingeConflict lockHeight hinges
            = Some (HingeProximityViolation y).
Proof.
  intros Hex.
  destruct (hingeConflict lockHeight hinges) as [e|] eqn:Hc.
  - destruct (hingeConflict_Some _ _ _ Hc) as (h & _ & _ & ->). eauto.
  - apply hingeConflict_None in Hc.
    apply Exists_exists in Hex as (h & Hin & Hclose).
    rewrite Forall_forall in Hc. now destruct (Hc h Hin).
Qed.

End LockValidation.

(** C4: the lock validator fails exactly when the lock height is outside
    [800, 1200], or the edge offset is outside [50, 90], or the leaf is
    thinner than the minimum of the lock type (cylinder 35, mortise 40,
    deadbolt 38, smart 40), or some hinge is vertically closer than 150mm to
    the lock, and it succeeds otherwise; each error names a rule that is
    violated; a lock at 900mm with a hinge at 1000mm fails with the hinge
    proximity error. *)
Theorem C4_lock_validation (input : Lock.LockPlacementInput)
    (hinges : list Hinge.HingePlacement) :
  let minimum :=
    match Lock.lockType input with
    | Lock.cylinder => 35
    | Lock.mortise => 40
    | Lock.deadbolt => 38
    | Lock.smart => 40
    end in
  let heightOut :=
    Lock.lockHeight input < 800 \/ Lock.lockHeight input > 1200 in
  let offsetOut := Lock.edgeOffset input < 50 \/ Lock.edgeOffset input > 90 in
  let tooThin := Lock.leafThickness input < minimum in
  let nearHinge := Exists (tooCloseTo (Lock.lockHeight input)) hinges in
  (valid (Lock.validateLockPlacement input hinges) = false
   <-> heightOut \/ offsetOut \/ tooThin \/ nearHinge)
  /\ (Lock.validateLockPlacement input hinges = Valid
      <-> ~ (heightOut \/ offsetOut \/ tooThin \/ nearHinge))
  /\ (forall e,
        Lock.validateLockPlacement input hinges = Invalid e ->
        match e with
        | Lock.HeightOutOfRange => heightOut
        | Lock.HingeProximityViolation y =>
            Exists
              (fun h =>
                 Vector3.y (Hinge.position h) = y
                 /\ tooCloseTo (Lock.lockHeight input) h)
              hinges
        | Lock.EdgeOffsetOutOfRange => offsetOut
        | Lock.ThicknessInsufficient _ _ _ => tooThin
        end)
  /\ (Lock.lockHeight input = 900 ->
      Exists (fun h => Vector3.y (Hinge.position h) = 1000) hinges ->
      exists y,
        Lock.validateLockPlacement input hinges
        = Invalid (Lock.HingeProximityViolation y)).
Proof.
  intros minimum heightOut offsetOut tooThin nearHinge.
  assert (Hmin : Lock.getMinimumThicknessForLock (Lock.lockType input)
                 = minimum)
    by (unfold minimum; destruct (Lock.lockType input); reflexivity).
  assert (Herr : forall e,
             Lock.validateLockPlacement input hinges = Invalid e ->
             match e with
             | Lock.HeightOutOfRange => heightOut
             | Lock.HingeProximityViolation y =>
                 Exists
                   (fun h =>
                      Vector3.y (Hinge.position h) = y
                      /\ tooCloseTo (Lock.lockHeight input) h)
                   hinges
             | Lock.EdgeOffsetOutOfRange => offsetOut
             | Lock.ThicknessInsufficient _ _ _ => tooThin
             end).
  { intros e. unfold Lock.validateLockPlacement. rewrite Hmin.
    destruct (Rlt_dec (Lock.lockHeight input) 800);
      [intros [= <-]; now left|].
    destruct (Rgt_dec (Lock.lockHeight input) 1200);
      [intros [= <-]; now right|].
    destruct (Lock.hingeConflict _ _) as [e'|] eqn:Hc.
    - intros [= <-].
      destruct (hingeConflict_Some _ _ _ Hc) as (h & Hin & Hclose & ->).
      apply Exists_exists. exists h. auto.
    - destruct (Rlt_dec (Lock.edgeOffset input) 50);
        [intros [= <-]; now left|].
      destruct (Rgt_dec (Lock.edgeOffset input) 90);
        [intros [= <-]; now right|].
      destruct (Rlt_dec (Lock.leafThickness input) minimum);
        [intros [= <-]; assumption | discriminate]. }
  assert (Hvalid : Lock.validateLockPlacement input hinges = Valid
                   <-> ~ (heightOut \/ offsetOut \/ tooThin \/ nearHinge)).
  { unfold Lock.validateLockPlacement. rewrite Hmin.
    unfold heightOut, offsetOut, tooThin, nearHinge.
    destruct (Rlt_dec (Lock.lockHeight input) 800);
      [split; [discriminate | tauto]|].
    destruct (Rgt_dec (Lock.lockHeight input) 1200);
      [split; [discriminate | tauto]|].
    destruct (Lock.hingeConflict _ _) as [e'|] eqn:Hc.
    - split; [discriminate|]. intros Hnone. exfalso. apply Hnone.
      do 3 right.
      destruct (hingeConflict_Some _ _ _ Hc) as (h & Hin & Hclose & _).
      apply Exists_exists. eauto.
    - apply hingeConflict_None in Hc.
      assert (Hfar : ~ Exists (tooCloseTo (Lock.lockHeight input)) hinges).
      { intros Hex. apply Exists_exists in Hex as (h & Hin & Hclose).
        rewrite Forall_forall in Hc. exact (Hc h Hin Hclose). }
      destruct (Rlt_dec (Lock.edgeOffset input) 50);
        [split; [discriminate | tauto]|].
      destruct (Rgt_dec (Lock.edgeOffset input) 90);
        [split; [discriminate | tauto]|].
      destruct (Rlt_dec (Lock.leafThickness input) minimum);
        [split; [discriminate | tauto]|].
      split; [|reflexivity]. intros _. tauto. }
  repeat split.
  - intros Hfalse.
    destruct (Lock.validateLockPlacement input hinges) as [|e] eqn:Hv;
      [discriminate|].
    specialize (Herr e eq_refl). destruct e; auto.
    do 3 right. apply Exists_exists in Herr as (h & Hin & _ & Hclose).
    apply Exists_exists. eauto.
  - intros Hsome.
    destruct (Lock.validateLockPlacement input hinges) as [|e] eqn:Hv;
      [|reflexivity].
    exfalso. now apply (proj1 Hvalid).
  - apply Hvalid.
  - apply Hvalid.
  - exact Herr.
  - intros Hheight Hex.
    assert (Hnear : Exists (tooCloseTo (Lock.lockHeight input)) hinges).
    { apply Exists_exists in Hex as (h & Hin & Hy).
      apply Exists_exists. exists h. split; [assumption|].
      unfold tooCloseTo. rewrite Hy, Hheight.
      replace (1000 - 900) with 100 by lra.
      rewrite Rabs_pos_eq; lra. }
    destruct (hingeConflict_Exists _ _ Hnear) as [y Hc].
    exists y. unfold Lock.validateLockPlacement. rewrite Hheight.
    destruct (Rlt_dec 900 800); [lra|].
    destruct (Rgt_dec 900 1200); [lra|].
    rewrite <- Hheight, Hc. reflexivity.
Qed.

(** ** The handle and the lock *)

(** C5: a lock is present for the handle calculation when the handle input
    carries a lock height.  Then the coordinated handle is placed at the Y
    of the lock, whatever handle height the input had, and 60mm from the
    opening edge (X = 60 on the left edge, X = doorWidth - 60 on the
    right); without a lock the handle keeps its own height and is placed
    70mm from the edge. *)
Theorem C5_handle_coordination (handleInput : Handle.HandlePlacementInput)
    (lockPlacement : Lock.LockPlacement) (side : Handle.MountSide) :
  let coordinated :=
    Handle.coordinateHandleWithLock handleInput lockPlacement in
  let placed := Handle.calculateHandlePosition coordinated side in
  let lockPresent := Js.truthy (Handle.lockHeight handleInput) in
  Vector3.y placed
  = (if lockPresent then Vector3.y (Lock.position lockPlacement)
     else Handle.handleHeight handleInput)
  /\ Vector3.x placed
     = (match Handle.edge handleInput with
        | Left => if lockPresent then 60 else 70
        | Right =>
            Handle.doorWidth handleInput - (if lockPresent then 60 else 70)
        end)
  /\ offsetFromEdge (Handle.edge handleInput) (Handle.doorWidth handleInput)
       (Vector3.x placed)
     = (if lockPresent then 60 else 70)
  /\ offsetFromEdge (Handle.edge handleInput) (Handle.doorWidth handleInput)
       (Vector3.x (Handle.calculateHandlePosition handleInput side))
     = (if lockPresent then 60 else 70).
Proof.
  unfold Handle.coordinateHandleWithLock, Handle.calculateHandlePosition,
    offsetFromEdge.
  destruct (Js.truthy (Handle.lockHeight handleInput)) eqn:Hlock; simpl.
  - rewrite Hlock. destruct (Handle.edge handleInput); simpl;
      repeat split; lra.
  - rewrite Hlock. destruct (Handle.edge handleInput); simpl;
      repeat split; lra.
Qed.

(** ** The bolts of the inactive leaf *)

Lemma calculateBoltPositions_map (input : Bolt.BoltPlacementInput) :
  Bolt.calculateBoltPositions input
  = map (Bolt.placeBolt input) (Bolt.positions input).
Proof.
  unfold Bolt.calculateBoltPositions.
  assert (Hgen : forall positions placements,
             fold_left
               (fun placements position =>
                  placements ++ [Bolt.placeBolt input position])
               positions placements
             = placements ++ map (Bolt.placeBolt input) positions).
  { induction positions as [|p positions IH]; intros placements; simpl.
    - now rewrite app_nil_r.
    - now rewrite IH, <- app_assoc. }
  apply Hgen.
Qed.

(** C8: for every bolt input that the validation accepts, the calculator
    returns one placement per requested position, in the order of the
    request, with Y = doorHeight - topOffset for a top bolt and
    Y = bottomOffset for a bottom bolt, X = 40 from the meeting edge (40 on
    the left, doorWidth - 40 on the right), Z = -leafThickness / 2 for a
    flush or automatic bolt and 0 for a surface bolt, and a rotation about
    the depth axis of 0 for a top bolt, of PI (180 degrees) for a bottom
    flush or automatic bolt, and of 0 for a surface bolt. *)
Theorem C8_bolt_positions (input : Bolt.BoltPlacementInput) :
  Bolt.validateBoltPlacement input = Valid ->
  List.length (Bolt.calculateBoltPositions input)
  = List.length (Bolt.positions input)
  /\ Forall2 (boltPlacedAt input) (Bolt.positions input)
       (Bolt.calculateBoltPositions input).
Proof.
  intros _. rewrite calculateBoltPositions_map. split.
  - apply length_map.
  - induction (Bolt.positions input) as [|position positions IH]; simpl;
      constructor; [|exact IH].
    unfold boltPlacedAt, Bolt.placeBolt, Bolt.calculateBoltDepth,
      Bolt.calculateBoltRotation. simpl.
    destruct (Bolt.boltType input), position; repeat split; reflexivity.
Qed.

Lemma C8_bolt_positions_witness :
  Bolt.validateBoltPlacement flushBoltInput = Valid
  /\ List.length (Bolt.calculateBoltPositions flushBoltInput) = 2%nat
  /\ Forall2 (boltPlacedAt flushBoltInput) [Bolt.top; Bolt.bottom]
       (Bolt.calculateBoltPositions flushBoltInput).
Proof.
  assert (Hvalid : Bolt.validateBoltPlacement flushBoltInput = Valid)
    by (unfold Bolt.validateBoltPlacement; js_eval; reflexivity).
  split; [exact Hvalid|].
  exact (C8_bolt_positions flushBoltInput Hvalid).
Defined.

(** ** The conflict detector *)

Section ConflictDetection.

Import Conflict.

(** Two positions that differ in height only. *)
Lemma distanceTo_vertical (x y1 y2 z : R) :
  Vector3.distanceTo (Vector3.new x y1 z) (Vector3.new x y2 z)
  = Rabs (y1 - y2).
Proof.
  unfold Vector3.distanceTo. simpl.
  replace ((x - x) * (x - x) + (y1 - y2) * (y1 - y2) + (z - z) * (z - z))
    with (Rsqr (y1 - y2)) by (unfold Rsqr; lra).
  apply sqrt_Rsqr_abs.
Qed.

(** When [metadata.type] holds the kind of the hardware, the pair of types
    is sorted before the key is built, so of the six keys of the table only
    'hinge-lock' can be built, and every other pair gets the default. *)
Lemma requiredClearance_of_kinds :
  (requiredForKinds "hinge" "lock" = 150
   /\ requiredForKinds "lock" "hinge" = 150)
  /\ (requiredForKinds "hinge" "handle" = 100
      /\ requiredForKinds "handle" "hinge" = 100)
  /\ (requiredForKinds "hinge" "bolt" = 100
      /\ requiredForKinds "bolt" "hinge" = 100)
  /\ (requiredForKinds "lock" "handle" = 100
      /\ requiredForKinds "handle" "lock" = 100)
  /\ (requiredForKinds "lock" "bolt" = 100
      /\ requiredForKinds "bolt" "lock" = 100)
  /\ (requiredForKinds "handle" "bolt" = 100
      /\ requiredForKinds "bolt" "handle" = 100).
Proof.
  unfold requiredForKinds, requiredClearance, kindItem. simpl.
  repeat split; decide_reals.
Qed.

(** The placements that the calculators return carry the type of the
    hinge and of the bolt, not the kind, and no key of the table is
    built from them. *)
Lemma requiredClearance_hinge_bolt (h : Hinge.HingePlacement)
    (b : Bolt.BoltPlacement) (t : Hinge.HingeType) :
  Hinge.type (Hinge.metadata h) = Some t ->
  requiredClearance (ofHinge h) (ofBolt b) = 100.
Proof.
  intros Ht. unfold requiredClearance, ofHinge, ofBolt. rewrite Ht.
  destruct t, (Bolt.Metadata.type (Bolt.metadata b)); reflexivity.
Qed.

(** What the detector does get right: a pair of items, the first before
    the second in [allHardware], gives a conflict exactly when its distance
    is below the clearance that the detector looked up, and the severity is
    error exactly when the distance is below half of that clearance. *)
Lemma checkAgainst_In (item1 : Item) (later : list Item)
    (c : HardwareConflict) :
  In c (checkAgainst item1 later)
  <-> exists j item2,
        nth_error later j = Some item2
        /\ Vector3.distanceTo (position item1) (position item2)
           < requiredClearance item1 item2
        /\ c = conflictOf item1 item2.
Proof.
  induction later as [|item2 later IH]; simpl.
  - split; [contradiction|]. intros (j & b & Hj & _). now destruct j.
  - rewrite in_app_iff, IH. unfold checkPair. split.
    + intros [Hin|(j & b & Hj & Hlt & ->)].
      * destruct (Rlt_dec _ _) as [Hlt|]; [|contradiction].
        destruct Hin as [<-|[]]. exists 0%nat, item2. auto.
      * exists (S j), b. auto.
    + intros ([|j] & b & Hj & Hlt & ->); simpl in Hj.
      * injection Hj as ->. left.
        destruct (Rlt_dec _ _); [now left | contradiction].
      * right. exists j, b. auto.
Qed.

Lemma checkAll_In (allHardware : list Item) (c : HardwareConflict) :
  In c (checkAll allHardware)
  <-> exists i j item1 item2,
        (i < j)%nat
        /\ nth_error allHardware i = Some item1
        /\ nth_error allHardware j = Some item2
        /\ Vector3.distanceTo (position item1) (position item2)
           < requiredClearance item1 item2
        /\ c = conflictOf item1 item2.
Proof.
  induction allHardware as [|item allHardware IH]; simpl.
  - split; [contradiction|]. intros (i & j & a & b & _ & Hi & _).
    now destruct i.
  - rewrite in_app_iff, checkAgainst_In, IH. split.
    + intros [(j & b & Hj & Hlt & ->)
             |(i & j & a & b & Hij & Hi & Hj & Hlt & ->)].
      * exists 0%nat, (S j), item, b. repeat split; auto. lia.
      * exists (S i), (S j), a, b. repeat split; auto. lia.
    + intros ([|i] & j & a & b & Hij & Hi & Hj & Hlt & ->); simpl in Hi.
      * injection Hi as ->. destruct j as [|j]; [lia|]. simpl in Hj.
        left. exists j, b. auto.
      * destruct j as [|j]; [lia|]. simpl in Hj.
        right. exists i, j, a, b. repeat split; auto. lia.
Qed.

Lemma conflictOf_severity (item1 item2 : Item) :
  severity (conflictOf item1 item2) = error
  <-> Vector3.distanceTo (position item1) (position item2)
      < requiredClearance item1 item2 * 0.5.
Proof.
  unfold conflictOf. simpl.
  destruct (Rlt_dec _ _); split; intros; try assumption;
    try reflexivity; try discriminate; contradiction.
Qed.

End ConflictDetection.

(** C3 fails on the code.  A lock and a handle 30mm apart need 50mm by the
    table, so the conflict is a warning (30 is not below 25); the detector
    builds the key 'handle-lock', finds nothing, takes the default of
    100mm and records an error.  A butt hinge and a surface bolt 150mm apart
    need 200mm by the table, so a conflict is due; the detector builds the
    key 'butt-surface', takes the default of 100mm and records nothing. *)
Theorem C3_clearance_table_unreached :
  (exists c,
     Conflict.detectHardwareConflicts [] (Some lockAt1050)
       (Some [handleAt1080]) None = [c]
     /\ Conflict.items c = (Some "lock_0", Some "handle_exterior")%string
     /\ Conflict.distance c = 30
     /\ Conflict.severity c = Conflict.error)
  /\ Vector3.distanceTo (Hinge.position hingeAt150) (Bolt.position boltAt300)
     = 150
  /\ Conflict.detectHardwareConflicts [hingeAt150] None None
       (Some [boltAt300]) = [].
Proof.
  assert (H30 : Vector3.distanceTo (Vector3.new 60 1050 0)
                  (Vector3.new 60 1080 0) = 30).
  { rewrite distanceTo_vertical. unfold Rabs.
    destruct (Rcase_abs _); lra. }
  assert (H150 : Vector3.distanceTo (Hinge.position hingeAt150)
                   (Bolt.position boltAt300) = 150).
  { simpl. rewrite distanceTo_vertical. unfold Rabs.
    destruct (Rcase_abs _); lra. }
  split; [|repeat split; try assumption].
  - eexists. split.
    + unfold Conflict.detectHardwareConflicts. simpl.
      unfold Conflict.checkPair. simpl Conflict.position.
      rewrite H30.
      replace (Conflict.requiredClearance (Conflict.ofLock lockAt1050)
                 (Conflict.ofHandle handleAt1080)) with 100
        by reflexivity.
      decide_reals. reflexivity.
    + repeat split; reflexivity.
  - unfold Conflict.detectHardwareConflicts. simpl.
    unfold Conflict.checkPair.
    change (Conflict.position (Conflict.ofHinge hingeAt150))
      with (Hinge.position hingeAt150).
    change (Conflict.position (Conflict.ofBolt boltAt300))
      with (Bolt.position boltAt300).
    rewrite H150.
    rewrite (requiredClearance_hinge_bolt hingeAt150 boltAt300 Hinge.butt)
      by reflexivity.
    decide_reals. reflexivity.
Qed.

(** * Further properties of the hinge algorithm *)

Section SortFacts.

Import Js.

Local Abbreviation numeric := (fun a b : R => a - b).

Lemma sort_insert_HdRel (b a : R) (l : list R) :
  b <= a -> HdRel Rle b l -> HdRel Rle b (sort_insert numeric a l).
Proof.
  intros Hba Hhd. destruct l as [|c l]; simpl.
  - now constructor.
  - destruct (Rle_dec (a - c) 0); constructor; [assumption|].
    now inversion Hhd.
Qed.

Lemma sort_insert_Sorted (a : R) (l : list R) :
  Sorted Rle l -> Sorted Rle (sort_insert numeric a l).
Proof.
  induction l as [|b l IH]; intros Hs; simpl.
  - repeat constructor.
  - inversion Hs as [|? ? Htl Hhd]; subst.
    destruct (Rle_dec (a - b) 0) as [Hle|Hgt].
    + constructor; [assumption|]. constructor. lra.
    + constructor; [now apply IH|].
      apply sort_insert_HdRel; [lra | assumption].
Qed.

Lemma sort_Sorted (l : list R) : Sorted Rle (sort numeric l).
Proof.
  induction l as [|a l IH]; simpl; [constructor|].
  now apply sort_insert_Sorted.
Qed.

Lemma sort_insert_Permutation (a : R) (l : list R) :
  Permutation (sort_insert numeric a l) (a :: l).
Proof.
  induction l as [|b l IH]; simpl; [reflexivity|].
  destruct (Rle_dec (a - b) 0); [reflexivity|].
  rewrite IH. apply perm_swap.
Qed.

Lemma sort_Permutation (l : list R) : Permutation (sort numeric l) l.
Proof.
  induction l as [|a l IH]; simpl; [reflexivity|].
  rewrite sort_insert_Permutation. now constructor.
Qed.

End SortFacts.

(** X1: the count validation accepts a hinge count exactly when it is at
    least 2, at least 3 on a door higher than 2100mm or heavier than 50kg,
    and at least 4 on a door heavier than 80kg. *)
Theorem X1_validateHingeCount_accepts (doorHeight doorWeight : R)
    (hingeCount : Z) :
  Hinge.validateHingeCount doorHeight doorWeight hingeCount = Valid
  <-> (2 <= hingeCount)%Z
      /\ (doorHeight > 2100 -> (3 <= hingeCount)%Z)
      /\ (doorWeight > 50 -> (3 <= hingeCount)%Z)
      /\ (doorWeight > 80 -> (4 <= hingeCount)%Z).
Proof.
  unfold Hinge.validateHingeCount.
  destruct (Rgt_dec doorHeight 2100), (Rgt_dec doorWeight 50),
    (Rgt_dec doorWeight 80);
    match goal with
    | |- context [(hingeCount <? ?m)%Z] =>
        destruct (Z.ltb_spec hingeCount m) as [Hlt|Hge]; simpl in *
    end;
    (split; [try discriminate; intros _; repeat split; intros; lia || lra
            | intros (H2 & Hh & Hw & Hww); try reflexivity;
              exfalso;
              try (specialize (Hww ltac:(assumption)); lia);
              try (specialize (Hw ltac:(assumption)); lia);
              try (specialize (Hh ltac:(assumption)); lia);
              try lia; lra]).
Qed.

(** The heights of the closed form lie between the two ends. *)
Lemma heightAt_between (hingeCount : Z) (doorHeight topOffset bottomOffset : R)
    (mode : Hinge.DistributionMode) (k : nat) :
  (2 <= hingeCount)%Z ->
  bottomOffset <= doorHeight - topOffset ->
  (k < Z.to_nat hingeCount)%nat ->
  bottomOffset
  <= heightAt hingeCount doorHeight topOffset bottomOffset mode k
  <= doorHeight - topOffset.
Proof.
  intros Hn Hspan Hk.
  assert (Hmono : forall i j, (i <= j)%nat ->
            heightAt hingeCount doorHeight topOffset bottomOffset mode i
            <= heightAt hingeCount doorHeight topOffset bottomOffset mode j).
  { intros i j Hij. induction Hij as [|j Hij IH]; [lra|].
    eapply Rle_trans; [exact IH | now apply heightAt_step]. }
  split.
  - rewrite <- (heightAt_first hingeCount doorHeight topOffset bottomOffset
                  mode) at 1.
    apply Hmono. lia.
  - rewrite <- (heightAt_last hingeCount doorHeight topOffset bottomOffset
                  Hn mode).
    apply Hmono. lia.
Qed.

(** X2: offsets that the offset validation accepts leave room for the
    hinges: for a count of at least two the calculation returns heights that
    all lie between bottomOffset and doorHeight - topOffset, so at least
    100mm away from the bottom and from the top of the door. *)
Theorem X2_validated_offsets_keep_heights_inside (hingeCount : Z)
    (doorHeight topOffset bottomOffset : R) (mode : Hinge.DistributionMode) :
  (2 <= hingeCount)%Z ->
  Hinge.validateOffsets doorHeight topOffset bottomOffset hingeCount = Valid ->
  exists ys,
    Hinge.calculateHingeYPositions hingeCount doorHeight topOffset
      bottomOffset mode = Js.Ok ys
    /\ Forall
         (fun y =>
            100 <= bottomOffset <= y /\ y <= doorHeight - topOffset
            /\ doorHeight - topOffset <= doorHeight - 100)
         ys.
Proof.
  intros Hn Hvalid. unfold Hinge.validateOffsets in Hvalid.
  destruct (Rlt_dec topOffset 100); [discriminate|].
  destruct (Rlt_dec bottomOffset 100); [discriminate|].
  destruct (Rlt_dec _ _) as [|Hspace]; [discriminate|].
  assert (Hcount : 0 <= IZR (hingeCount - 2)) by (apply IZR_le; lia).
  assert (Hspan : bottomOffset <= doorHeight - topOffset) by nra.
  eexists. split; [now apply calculateHingeYPositions_closed|].
  apply Forall_forall. intros y Hy.
  apply in_map_iff in Hy as (k & <- & Hk). apply in_seq in Hk.
  pose proof (heightAt_between hingeCount doorHeight topOffset bottomOffset
                mode k Hn Hspan ltac:(lia)).
  lra.
Qed.

Lemma X2_validated_offsets_keep_heights_inside_witness :
  (2 <= 4)%Z
  /\ Hinge.validateOffsets 2100 200 180 4 = Valid
  /\ exists ys,
       Hinge.calculateHingeYPositions 4 2100 200 180 Hinge.weighted
       = Js.Ok ys
       /\ Forall
            (fun y =>
               100 <= 180 <= y /\ y <= 2100 - 200
               /\ 2100 - 200 <= 2100 - 100)
            ys.
Proof.
  assert (Hvalid : Hinge.validateOffsets 2100 200 180 4 = Valid)
    by (unfold Hinge.validateOffsets; js_eval; reflexivity).
  split; [lia|]. split; [exact Hvalid|].
  exact (X2_validated_offsets_keep_heights_inside 4 2100 200 180
           Hinge.weighted ltac:(lia) Hvalid).
Defined.

(** X3: with three or more hinges the calculation returns, for any offsets
    and in both modes, the heights of the loop in ascending order: the final
    sort holds even when the offsets overlap.  With exactly two hinges the
    early return skips the sort and the result is
    [bottomOffset; doorHeight - topOffset] as it is; below two the
    calculation throws. *)
Theorem X3_heights_sorted_from_three (hingeCount : Z)
    (doorHeight topOffset bottomOffset : R) (mode : Hinge.DistributionMode) :
  let result :=
    Hinge.calculateHingeYPositions hingeCount doorHeight topOffset
      bottomOffset mode in
  ((hingeCount < 2)%Z -> result = Js.Throw Hinge.MinimumTwoHinges)
  /\ (hingeCount = 2%Z ->
      result = Js.Ok [bottomOffset; doorHeight - topOffset])
  /\ ((3 <= hingeCount)%Z ->
      exists ys,
        result = Js.Ok ys
        /\ Sorted Rle ys
        /\ Permutation ys
             (map (heightAt hingeCount doorHeight topOffset bottomOffset mode)
                (seq 0 (Z.to_nat hingeCount)))).
Proof.
  intros result. subst result. repeat split.
  - intros Hlt. unfold Hinge.calculateHingeYPositions.
    destruct (Z.ltb_spec hingeCount 2); [reflexivity | lia].
  - intros ->. reflexivity.
  - intros Hn.
    rewrite positions_before_sort by (try lia; apply Z.eqb_neq; lia).
    replace (Z.to_nat hingeCount) with (S (S (Z.to_nat (hingeCount - 2))))
      by lia.
    eexists. split; [reflexivity|]. split.
    + apply sort_Sorted.
    + apply sort_Permutation.
Qed.

Section PlaceHingesOutput.

Import Js Hinge.

Variable estimateDoorWeight : HingePlacementInput -> R.

Lemma buildPlacements_nth_error (input : HingePlacementInput) (xPos zPos : R)
    (rotation : Euler.t) (ys : list R) (i k : nat) :
  nth_error (buildPlacements input xPos zPos rotation i ys) k
  = option_map (buildPlacement input xPos zPos rotation (i + k))
      (nth_error ys k).
Proof.
  revert i k. induction ys as [|y ys IH]; intros i k; simpl.
  - now destruct k.
  - destruct k as [|k]; simpl.
    + now rewrite Nat.add_0_r.
    + rewrite IH. now rewrite Nat.add_succ_r.
Qed.

(** The adjustment of the hinge type moves a hinge sideways or in depth,
    never in height. *)
Lemma applyTypeAdjustments_y (input : HingePlacementInput)
    (position : Vector3.t) :
  Vector3.y (applyTypeAdjustments input position) = Vector3.y position.
Proof.
  unfold applyTypeAdjustments, adjustButtHingePlacement,
    adjustConcealedHingePlacement.
  destruct (hingeType input), (hingeSide input); simpl; lra.
Qed.

(** The decimal rendering of a loop index determines the index. *)
Lemma showNat_injective (i j : nat) : showNat i = showNat j -> i = j.
Proof.
  unfold showNat. intros Heq.
  apply (f_equal NilEmpty.uint_of_string) in Heq.
  rewrite !NilEmpty.usu in Heq. injection Heq as Heq.
  apply (f_equal Nat.of_uint) in Heq.
  now rewrite !DecimalNat.Unsigned.of_to in Heq.
Qed.

Lemma buildPlacements_ids (input : HingePlacementInput) (xPos zPos : R)
    (rotation : Euler.t) (ys : list R) (i : nat) :
  map id (buildPlacements input xPos zPos rotation i ys)
  = map (fun k => Some ("hinge_" ++ showNat k)%string)
      (seq i (List.length ys)).
Proof.
  revert i. induction ys as [|y ys IH]; intros i; simpl; [reflexivity|].
  now rewrite IH.
Qed.

End PlaceHingesOutput.



(** X5: the ids of the placements of one successful call are pairwise
    different. *)
Theorem X5_placement_ids_unique
    (estimateDoorWeight : Hinge.HingePlacementInput -> R)
    (input : Hinge.HingePlacementInput) (ps : list Hinge.HingePlacement) :
  Hinge.placeHinges estimateDoorWeight input = Js.Ok ps ->
  NoDup (map Hinge.id ps).
Proof.
  intros Hps. apply placeHinges_Ok in Hps as [_ Hps].
  assert (Hbuilt : forall x z r ys,
             NoDup (map Hinge.id (Hinge.buildPlacements input x z r 0 ys))).
  { intros x z r ys. rewrite buildPlacements_ids.
    apply Finite.Injective_map_NoDup; [|apply seq_NoDup].
    intros i j Hij. injection Hij as Hij.
    now apply showNat_injective. }
  destruct (Hinge.hingeType input).
  - destruct Hps as (ys & _ & ->). apply Hbuilt.
  - destruct Hps as (ys & _ & ->). apply Hbuilt.
  - subst ps. simpl. repeat constructor. intros [].
Qed.

Lemma X5_placement_ids_unique_witness :
  NoDup
    (map Hinge.id
       (Hinge.buildPlacements buttLeftInput 0 0
          (Hinge.getHingeRotation Left Hinge.butt) 0 [150; 2000 - 150])).
Proof.
  exact (X5_placement_ids_unique lightDoor buttLeftInput _
           placeHinges_buttLeftInput).
Defined.

(** X6: the hinge calculator returns placements exactly when the count
    validation accepts the input, and otherwise throws the error of the
    count validation; no other check can make it fail. *)
Theorem X6_placeHinges_succeeds_iff_count_valid
    (estimateDoorWeight : Hinge.HingePlacementInput -> R)
    (input : Hinge.HingePlacementInput) :
  let validation :=
    Hinge.validateHingeCount (Hinge.doorHeight input)
      (estimateDoorWeight input) (Hinge.hingeCount input) in
  ((exists ps, Hinge.placeHinges estimateDoorWeight input = Js.Ok ps)
   <-> validation = Valid)
  /\ (forall e,
        Hinge.placeHinges estimateDoorWeight input = Js.Throw e
        <-> validation = Invalid e).
Proof.
  intros validation. subst validation.
  destruct (Hinge.placeHinges estimateDoorWeight input) as [ps|e] eqn:Hplace.
  - destruct (placeHinges_Ok _ _ _ Hplace) as [Hvalid _]. rewrite Hvalid.
    split; [split; eauto|]. intros e. split; discriminate.
  - assert (Hinvalid : Hinge.validateHingeCount (Hinge.doorHeight input)
                         (estimateDoorWeight input) (Hinge.hingeCount input)
                       = Invalid e).
    { destruct (placeHinges_Throw _ _ _ Hplace) as (m & h & w & ->).
      revert Hplace. unfold Hinge.placeHinges.
      destruct (Hinge.validateHingeCount _ _ _) as [|e'] eqn:Hv.
      - apply validateHingeCount_Valid in Hv.
        destruct (Hinge.hingeType input); try discriminate;
          unfold Hinge.calculateHingeYPositions;
          (destruct (Z.ltb_spec (Hinge.hingeCount input) 2); [lia|]);
          destruct (Hinge.hingeCount input =? 2)%Z; discriminate.
      - now intros [= ->]. }
    rewrite Hinvalid. split.
    + split; [intros [ps Hps]; discriminate | discriminate].
    + intros e'. split; intros [= ->]; reflexivity.
Qed.

Lemma buildPlacements_mirrored (input : Hinge.HingePlacementInput)
    (zPos : R) (ys : list R) (i : nat) :
  Hinge.doorWidth input <> 0 ->
  Forall2 (mirrored (Hinge.doorWidth input))
    (Hinge.buildPlacements input
       (Hinge.getHingeXPosition (Hinge.hingeSide input)
          (Hinge.doorWidth input))
       zPos
       (Hinge.getHingeRotation (Hinge.hingeSide input)
          (Hinge.hingeType input))
       i ys)
    (Hinge.buildPlacements (mirrorHingeSide input)
       (Hinge.getHingeXPosition (Hinge.hingeSide (mirrorHingeSide input))
          (Hinge.doorWidth input))
       zPos
       (Hinge.getHingeRotation (Hinge.hingeSide (mirrorHingeSide input))
          (Hinge.hingeType input))
       i ys).
Proof.
  intros Hwidth. revert i.
  induction ys as [|y ys IH]; intros i; simpl; constructor; [|apply IH].
  unfold mirrored, Hinge.buildPlacement, Hinge.applyTypeAdjustments,
    Hinge.adjustButtHingePlacement, Hinge.adjustConcealedHingePlacement.
  simpl.
  destruct (Hinge.hingeType input), (Hinge.hingeSide input); simpl;
    decide_reals; repeat split; lra.
Qed.

(** X7: on a leaf whose width is not 0, the hinges of an input and of the
    same input with the hinge side mirrored (the opposing leaf of a double
    door) mirror each other one by one: the two X add up to doorWidth, Y and
    Z are equal, and the rotations about the vertical axis are opposite. *)
Theorem X7_mirrored_hinge_side
    (estimateDoorWeight estimateDoorWeight' : Hinge.HingePlacementInput -> R)
    (input : Hinge.HingePlacementInput)
    (ps qs : list Hinge.HingePlacement) :
  Hinge.doorWidth input <> 0 ->
  Hinge.placeHinges estimateDoorWeight input = Js.Ok ps ->
  Hinge.placeHinges estimateDoorWeight' (mirrorHingeSide input) = Js.Ok qs ->
  Forall2 (mirrored (Hinge.doorWidth input)) ps qs.
Proof.
  intros Hwidth Hps Hqs.
  apply placeHinges_Ok in Hps as [_ Hps].
  apply placeHinges_Ok in Hqs as [_ Hqs].
  change (Hinge.hingeType (mirrorHingeSide input))
    with (Hinge.hingeType input) in Hqs.
  destruct (Hinge.hingeType input) eqn:Htype.
  - destruct Hps as (ys & Hys & ->). destruct Hqs as (ys' & Hys' & ->).
    assert (Heq : Js.Ok (E := Hinge.Error) ys = Js.Ok ys')
      by (rewrite <- Hys, <- Hys'; reflexivity).
    injection Heq as <-.
    pose proof (buildPlacements_mirrored input
                  (Hinge.getHingeZPosition Hinge.butt
                     (Hinge.leafThickness input)) ys 0 Hwidth) as Hm.
    now rewrite Htype in Hm.
  - destruct Hps as (ys & Hys & ->). destruct Hqs as (ys' & Hys' & ->).
    assert (Heq : Js.Ok (E := Hinge.Error) ys = Js.Ok ys')
      by (rewrite <- Hys, <- Hys'; reflexivity).
    injection Heq as <-.
    pose proof (buildPlacements_mirrored input
                  (Hinge.getHingeZPosition Hinge.concealed
                     (Hinge.leafThickness input)) ys 0 Hwidth) as Hm.
    now rewrite Htype in Hm.
  - subst ps qs. constructor; [|constructor].
    unfold mirrored. simpl.
    destruct (Hinge.hingeSide input); simpl; repeat split; lra.
Qed.

Lemma placeHinges_mirror_buttLeftInput :
  Hinge.placeHinges lightDoor (mirrorHingeSide buttLeftInput)
  = Js.Ok
      (Hinge.buildPlacements (mirrorHingeSide buttLeftInput) 900 0
         (Hinge.getHingeRotation Right Hinge.butt) 0 [150; 2000 - 150]).
Proof.
  unfold Hinge.placeHinges, Hinge.validateHingeCount, lightDoor.
  js_eval. reflexivity.
Qed.

Lemma X7_mirrored_hinge_side_witness :
  Hinge.doorWidth buttLeftInput <> 0
  /\ Forall2 (mirrored 900)
       (Hinge.buildPlacements buttLeftInput 0 0
          (Hinge.getHingeRotation Left Hinge.butt) 0 [150; 2000 - 150])
       (Hinge.buildPlacements (mirrorHingeSide buttLeftInput) 900 0
          (Hinge.getHingeRotation Right Hinge.butt) 0 [150; 2000 - 150]).
Proof.
  assert (Hwidth : Hinge.doorWidth buttLeftInput <> 0) by (simpl; lra).
  split; [exact Hwidth|].
  exact (X7_mirrored_hinge_side lightDoor lightDoor buttLeftInput _ _ Hwidth
           placeHinges_buttLeftInput placeHinges_mirror_buttLeftInput).
Defined.

(** X8: when the offsets that the calculator uses (the given ones, or 150
    for a missing or zero one) are not negative and fit into the door
    height, every hinge of a successful call is placed at a height within
    [0, doorHeight]. *)
Theorem X8_hinges_within_door_height
    (estimateDoorWeight : Hinge.HingePlacementInput -> R)
    (input : Hinge.HingePlacementInput) (ps : list Hinge.HingePlacement) :
  0 <= effectiveTopOffset input ->
  0 <= effectiveBottomOffset input ->
  effectiveTopOffset input + effectiveBottomOffset input
  <= Hinge.doorHeight input ->
  Hinge.placeHinges estimateDoorWeight input = Js.Ok ps ->
  Forall
    (fun p => 0 <= Vector3.y (Hinge.position p) <= Hinge.doorHeight input)
    ps.
Proof.
  unfold effectiveTopOffset, effectiveBottomOffset.
  intros Htop Hbottom Hfit Hps.
  apply placeHinges_Ok in Hps as [Hvalid Hps].
  apply validateHingeCount_Valid in Hvalid.
  assert (Hbuilt : forall x z r ys,
             Hinge.calculateHingeYPositions (Hinge.hingeCount input)
               (Hinge.doorHeight input)
               (Js.orDefault (Hinge.rule input Hinge.topOffset) 150)
               (Js.orDefault (Hinge.rule input Hinge.bottomOffset) 150)
               (Js.orElse (Hinge.rule input Hinge.distributionMode)
                  Hinge.even) = Js.Ok ys ->
             Forall
               (fun p =>
                  0 <= Vector3.y (Hinge.position p) <= Hinge.doorHeight input)
               (Hinge.buildPlacements input x z r 0 ys)).
  { intros x z r ys Hys.
    rewrite calculateHingeYPositions_closed in Hys by (try assumption; lra).
    injection Hys as <-.
    apply Forall_forall. intros p Hp.
    apply In_nth_error in Hp as [k Hk].
    rewrite buildPlacements_nth_error in Hk.
    destruct (nth_error _ k) as [y|] eqn:Hy; [|discriminate].
    injection Hk as <-. simpl. rewrite applyTypeAdjustments_y. simpl.
    apply nth_error_In in Hy.
    apply in_map_iff in Hy as (j & <- & Hj). apply in_seq in Hj.
    pose proof (heightAt_between (Hinge.hingeCount input)
                  (Hinge.doorHeight input)
                  (Js.orDefault (Hinge.rule input Hinge.topOffset) 150)
                  (Js.orDefault (Hinge.rule input Hinge.bottomOffset) 150)
                  (Js.orElse (Hinge.rule input Hinge.distributionMode)
                     Hinge.even)
                  j Hvalid ltac:(lra) ltac:(lia)).
    lra. }
  destruct (Hinge.hingeType input).
  - destruct Hps as (ys & Hys & ->). now apply Hbuilt.
  - destruct Hps as (ys & Hys & ->). now apply Hbuilt.
  - subst ps. constructor; [|constructor]. simpl. lra.
Qed.

Lemma placeHinges_shortTopOffsetInput :
  exists ps, Hinge.placeHinges lightDoor shortTopOffsetInput = Js.Ok ps.
Proof.
  destruct (Hinge.placeHinges lightDoor shortTopOffsetInput) as [ps|e] eqn:Hp.
  - now exists ps.
  - exfalso. revert Hp.
    unfold Hinge.placeHinges, Hinge.validateHingeCount, lightDoor.
    js_eval; discriminate.
Qed.

Lemma X8_hinges_within_door_height_witness :
  0 <= effectiveTopOffset shortTopOffsetInput
  /\ 0 <= effectiveBottomOffset shortTopOffsetInput
  /\ effectiveTopOffset shortTopOffsetInput
     + effectiveBottomOffset shortTopOffsetInput
     <= Hinge.doorHeight shortTopOffsetInput
  /\ exists ps,
       Hinge.placeHinges lightDoor shortTopOffsetInput = Js.Ok ps
       /\ Forall
            (fun p => 0 <= Vector3.y (Hinge.position p) <= 2000) ps.
Proof.
  assert (Htop : effectiveTopOffset shortTopOffsetInput = 50)
    by (unfold effectiveTopOffset; simpl; decide_reals).
  assert (Hbottom : effectiveBottomOffset shortTopOffsetInput = 150)
    by (unfold effectiveBottomOffset; simpl; decide_reals).
  assert (H1 : 0 <= effectiveTopOffset shortTopOffsetInput)
    by (rewrite Htop; lra).
  assert (H2 : 0 <= effectiveBottomOffset shortTopOffsetInput)
    by (rewrite Hbottom; lra).
  assert (H3 : effectiveTopOffset shortTopOffsetInput
               + effectiveBottomOffset shortTopOffsetInput
               <= Hinge.doorHeight shortTopOffsetInput)
    by (rewrite Htop, Hbottom; simpl; lra).
  split; [exact H1|]. split; [exact H2|]. split; [exact H3|].
  destruct placeHinges_shortTopOffsetInput as [ps Hp].
  exists ps. split; [exact Hp|].
  exact (X8_hinges_within_door_height lightDoor shortTopOffsetInput ps
           H1 H2 H3 Hp).
Defined.

(** * Further properties of the lock algorithm *)

Lemma validateLockPlacement_Valid (input : Lock.LockPlacementInput)
    (hinges : list Hinge.HingePlacement) :
  Lock.validateLockPlacement input hinges = Valid ->
  800 <= Lock.lockHeight input <= 1200
  /\ 50 <= Lock.edgeOffset input <= 90
  /\ Lock.getMinimumThicknessForLock (Lock.lockType input)
     <= Lock.leafThickness input
  /\ Lock.hingeConflict (Lock.lockHeight input) hinges = None.
Proof.
  unfold Lock.validateLockPlacement.
  destruct (Rlt_dec (Lock.lockHeight input) 800); [discriminate|].
  destruct (Rgt_dec (Lock.lockHeight input) 1200); [discriminate|].
  destruct (Lock.hingeConflict _ _); [discriminate|].
  destruct (Rlt_dec (Lock.edgeOffset input) 50); [discriminate|].
  destruct (Rgt_dec (Lock.edgeOffset input) 90); [discriminate|].
  destruct (Rlt_dec (Lock.leafThickness input) _); [discriminate|].
  intros _. repeat split; try reflexivity; lra.
Qed.

(** X9: a lock that the validation accepts is placed inside the leaf: its
    depth lies strictly below the exterior face and not beyond the interior
    face (-leafThickness <= Z < 0) for every lock type, its height is
    within [800, 1200], and its distance from the opening edge is the edge
    offset, within [50, 90]. *)
Theorem X9_valid_lock_inside_leaf (input : Lock.LockPlacementInput)
    (hinges : list Hinge.HingePlacement) :
  Lock.validateLockPlacement input hinges = Valid ->
  let p := Lock.calculateLockPosition input in
  - Lock.leafThickness input <= Vector3.z p < 0
  /\ 800 <= Vector3.y p <= 1200
  /\ offsetFromEdge (Lock.edge input) (Lock.doorWidth input) (Vector3.x p)
     = Lock.edgeOffset input
  /\ 50 <= Lock.edgeOffset input <= 90.
Proof.
  intros Hvalid.
  apply validateLockPlacement_Valid in Hvalid
    as (Hheight & Hoffset & Hthick & _).
  unfold Lock.calculateLockPosition, Lock.calculateLockDepth, offsetFromEdge.
  simpl. unfold Lock.getMinimumThicknessForLock in Hthick.
  repeat split; try lra.
  - destruct (Lock.lockType input); unfold Rmin;
      try destruct (Rle_dec _ _); lra.
  - destruct (Lock.lockType input); unfold Rmin;
      try destruct (Rle_dec _ _); lra.
  - destruct (Lock.edge input); lra.
Qed.

Lemma X9_valid_lock_inside_leaf_witness :
  Lock.validateLockPlacement mortiseLockInput [] = Valid
  /\ - 44 <= Vector3.z (Lock.calculateLockPosition mortiseLockInput) < 0.
Proof.
  assert (Hvalid : Lock.validateLockPlacement mortiseLockInput [] = Valid)
    by (unfold Lock.validateLockPlacement; js_eval; reflexivity).
  split; [exact Hvalid|].
  exact (proj1 (X9_valid_lock_inside_leaf mortiseLockInput [] Hvalid)).
Defined.

(** Both lock adjustments keep the height and the depth of the lock.  The
    mortise adjustment puts the lock at the backset from its own edge; the
    cylinder adjustment ignores the edge and puts the lock at the backset
    from the left edge of the door. *)
Lemma lock_adjustments (input : Lock.LockPlacementInput)
    (cylinder : Lock.CylinderLockParams) (mortise : Lock.MortiseLockParams) :
  let base := Lock.calculateLockPosition input in
  let c := Lock.adjustCylinderLockPlacement base cylinder in
  let m :=
    Lock.adjustMortiseLockPlacement base (Lock.edge input)
      (Lock.doorWidth input) mortise in
  (Vector3.y c = Lock.lockHeight input /\ Vector3.z c = Vector3.z base)
  /\ (Vector3.y m = Lock.lockHeight input /\ Vector3.z m = Vector3.z base)
  /\ offsetFromEdge (Lock.edge input) (Lock.doorWidth input) (Vector3.x m)
     = Lock.backset mortise
  /\ offsetFromEdge Left (Lock.doorWidth input) (Vector3.x c)
     = Lock.backsetDistance cylinder.
Proof.
  simpl. unfold offsetFromEdge.
  destruct (Lock.edge input); simpl; repeat split; lra.
Qed.

Lemma hingeConflict_first (lockHeight y : R)
    (hinges : list Hinge.HingePlacement) :
  Lock.hingeConflict lockHeight hinges
  = Some (Lock.HingeProximityViolation y) ->
  exists before hinge after,
    hinges = before ++ hinge :: after
    /\ Forall (fun h => ~ tooCloseTo lockHeight h) before
    /\ tooCloseTo lockHeight hinge
    /\ Vector3.y (Hinge.position hinge) = y.
Proof.
  unfold tooCloseTo.
  induction hinges as [|h hinges IH]; simpl; [discriminate|].
  destruct (Rlt_dec _ 150) as [Hlt|Hge].
  - intros [= <-]. exists [], h, hinges. repeat split; auto.
  - intros Hc. destruct (IH Hc) as (before & hinge & after & -> & Hb & Hh & Hy).
    exists (h :: before), hinge, after. repeat split; auto.
Qed.

(** X10: when a lock breaks several rules the validation reports one
    error, that of the first broken rule in the order height, hinge
    proximity, edge offset, thickness: the height error whenever the height
    is out of range; the hinge proximity error exactly when the height is
    in range and some hinge is too close, and then for the first such hinge
    of the list; the edge offset error only when height and hinges are
    fine; the thickness error only when everything else is fine. *)
Theorem X10_lock_error_precedence (input : Lock.LockPlacementInput)
    (hinges : list Hinge.HingePlacement) :
  let result := Lock.validateLockPlacement input hinges in
  let heightOut :=
    Lock.lockHeight input < 800 \/ Lock.lockHeight input > 1200 in
  let offsetOut := Lock.edgeOffset input < 50 \/ Lock.edgeOffset input > 90 in
  let nearHinge := Exists (tooCloseTo (Lock.lockHeight input)) hinges in
  (result = Invalid Lock.HeightOutOfRange <-> heightOut)
  /\ ((exists y, result = Invalid (Lock.HingeProximityViolation y))
      <-> ~ heightOut /\ nearHinge)
  /\ (forall y,
        result = Invalid (Lock.HingeProximityViolation y) ->
        exists before hinge after,
          hinges = before ++ hinge :: after
          /\ Forall (fun h => ~ tooCloseTo (Lock.lockHeight input) h) before
          /\ tooCloseTo (Lock.lockHeight input) hinge
          /\ Vector3.y (Hinge.position hinge) = y)
  /\ (result = Invalid Lock.EdgeOffsetOutOfRange
      <-> ~ heightOut /\ ~ nearHinge /\ offsetOut)
  /\ ((exists t k m, result = Invalid (Lock.ThicknessInsufficient t k m))
      <-> ~ heightOut /\ ~ nearHinge /\ ~ offsetOut
          /\ Lock.leafThickness input
             < Lock.getMinimumThicknessForLock (Lock.lockType input)).
Proof.
  intros result heightOut offsetOut nearHinge.
  subst result heightOut offsetOut nearHinge.
  unfold Lock.validateLockPlacement.
  destruct (Rlt_dec (Lock.lockHeight input) 800) as [Hlow|Hlow].
  { repeat split; intros; try discriminate; auto;
      try (destruct H as (? & ?); discriminate);
      try (destruct H as (? & ? & ? & ?); discriminate);
      try tauto. }
  destruct (Rgt_dec (Lock.lockHeight input) 1200) as [Hhigh|Hhigh].
  { repeat split; intros; try discriminate; auto;
      try (destruct H as (? & ?); discriminate);
      try (destruct H as (? & ? & ? & ?); discriminate);
      try tauto. }
  assert (Hin : ~ (Lock.lockHeight input < 800
                   \/ Lock.lockHeight input > 1200)) by tauto.
  destruct (Lock.hingeConflict _ _) as [e|] eqn:Hc.
  - destruct (hingeConflict_Some _ _ _ Hc) as (h & Hh & Hclose & ->).
    assert (Hnear : Exists (tooCloseTo (Lock.lockHeight input)) hinges)
      by (apply Exists_exists; eauto).
    repeat split; intros; try discriminate; eauto; try tauto;
      try (destruct H as (? & ? & ? & ?); discriminate).
    injection H as <-. now apply hingeConflict_first.
  - apply hingeConflict_None in Hc.
    assert (Hfar : ~ Exists (tooCloseTo (Lock.lockHeight input)) hinges).
    { intros Hex. apply Exists_exists in Hex as (h & Hh & Hclose).
      rewrite Forall_forall in Hc. exact (Hc h Hh Hclose). }
    destruct (Rlt_dec (Lock.edgeOffset input) 50) as [Hnarrow|Hnarrow].
    { repeat split; intros; try discriminate; auto;
        try (destruct H as (? & ?); discriminate);
        try (destruct H as (? & ? & ? & ?); discriminate);
        try tauto. }
    destruct (Rgt_dec (Lock.edgeOffset input) 90) as [Hwide|Hwide].
    { repeat split; intros; try discriminate; auto;
        try (destruct H as (? & ?); discriminate);
        try (destruct H as (? & ? & ? & ?); discriminate);
        try tauto. }
    destruct (Rlt_dec (Lock.leafThickness input) _) as [Hthin|Hthick].
    + repeat split; intros; try discriminate; eauto; try tauto;
        try (destruct H as (? & ?); discriminate).
    + repeat split; intros; try discriminate; auto;
        try (destruct H as (? & ?); discriminate);
        try (destruct H as (? & ? & ? & ?); discriminate);
        try tauto.
Qed.

Lemma hingeConflict_app (lockHeight : R)
    (hinges more : list Hinge.HingePlacement) :
  Lock.hingeConflict lockHeight (hinges ++ more) = None
  <-> Lock.hingeConflict lockHeight hinges = None
      /\ Lock.hingeConflict lockHeight more = None.
Proof.
  rewrite !hingeConflict_None, Forall_app. reflexivity.
Qed.

Lemma validateLockPlacement_app (input : Lock.LockPlacementInput)
    (hinges more : list Hinge.HingePlacement) :
  valid (Lock.validateLockPlacement input (hinges ++ more))
  = valid (Lock.validateLockPlacement input hinges)
    && valid (Lock.validateLockPlacement input more).
Proof.
  unfold Lock.validateLockPlacement.
  destruct (Rlt_dec (Lock.lockHeight input) 800); [reflexivity|].
  destruct (Rgt_dec (Lock.lockHeight input) 1200); [reflexivity|].
  pose proof (hingeConflict_app (Lock.lockHeight input) hinges more) as Happ.
  destruct (Lock.hingeConflict _ (hinges ++ more)) as [e|];
    destruct (Lock.hingeConflict _ hinges) as [e1|];
    destruct (Lock.hingeConflict _ more) as [e2|]; simpl;
    try reflexivity;
    try (destruct Happ as [Happ _]; destruct (Happ eq_refl); discriminate);
    try (destruct Happ as [_ Happ]; specialize (Happ (conj eq_refl eq_refl));
         discriminate);
    destruct (Rlt_dec (Lock.edgeOffset input) 50); try reflexivity;
    destruct (Rgt_dec (Lock.edgeOffset input) 90); try reflexivity;
    destruct (Rlt_dec (Lock.leafThickness input) _); reflexivity.
Qed.

(** X11: the lock validation accepts a list of hinges exactly when it
    accepts each part of it, so the hinges can be checked part by part or
    all at once, and swapping the parts does not change the verdict. *)
Theorem X11_lock_validation_splits (input : Lock.LockPlacementInput)
    (hinges more : list Hinge.HingePlacement) :
  valid (Lock.validateLockPlacement input (hinges ++ more))
  = valid (Lock.validateLockPlacement input hinges)
    && valid (Lock.validateLockPlacement input more)
  /\ valid (Lock.validateLockPlacement input (more ++ hinges))
     = valid (Lock.validateLockPlacement input (hinges ++ more)).
Proof.
  split.
  - apply validateLockPlacement_app.
  - rewrite !validateLockPlacement_app. apply andb_comm.
Qed.

(** X12: the two hinges of a door with two butt or concealed hinges, a
    bottom hinge not above 650mm and a top hinge not below 1350mm (the
    defaults of 150mm on any door of at least 1500mm) never stand in the way
    of a lock: the lock validation gives the same result with them as
    without any hinge. *)
Theorem X12_two_hinges_clear_of_lock
    (estimateDoorWeight : Hinge.HingePlacementInput -> R)
    (input : Hinge.HingePlacementInput) (ps : list Hinge.HingePlacement)
    (lock : Lock.LockPlacementInput) :
  Hinge.hingeType input <> Hinge.piano ->
  Hinge.hingeCount input = 2%Z ->
  effectiveBottomOffset input <= 650 ->
  1350 <= Hinge.doorHeight input - effectiveTopOffset input ->
  Hinge.placeHinges estimateDoorWeight input = Js.Ok ps ->
  Lock.validateLockPlacement lock ps = Lock.validateLockPlacement lock [].
Proof.
  unfold effectiveBottomOffset, effectiveTopOffset.
  intros Htype Hcount Hbottom Htop Hps.
  apply placeHinges_Ok in Hps as [_ Hps].
  assert (Hbuilt : exists x z r,
             ps = Hinge.buildPlacements input x z r 0
                    [Js.orDefault (Hinge.rule input Hinge.bottomOffset) 150;
                     Hinge.doorHeight input
                     - Js.orDefault (Hinge.rule input Hinge.topOffset) 150]).
  { destruct (Hinge.hingeType input); try easy;
      destruct Hps as (ys & Hys & ->); rewrite Hcount in Hys;
      injection Hys as <-; eauto. }
  destruct Hbuilt as (x & z & r & ->).
  unfold Lock.validateLockPlacement.
  destruct (Rlt_dec (Lock.lockHeight lock) 800); [reflexivity|].
  destruct (Rgt_dec (Lock.lockHeight lock) 1200); [reflexivity|].
  simpl. rewrite !applyTypeAdjustments_y. simpl.
  destruct (Rlt_dec _ 150) as [Hnear|_].
  { exfalso. revert Hnear. unfold Rabs. destruct (Rcase_abs _); lra. }
  destruct (Rlt_dec _ 150) as [Hnear|_].
  { exfalso. revert Hnear. unfold Rabs. destruct (Rcase_abs _); lra. }
  reflexivity.
Qed.

Lemma X12_two_hinges_clear_of_lock_witness :
  Hinge.hingeType buttLeftInput <> Hinge.piano
  /\ Hinge.hingeCount buttLeftInput = 2%Z
  /\ effectiveBottomOffset buttLeftInput <= 650
  /\ 1350 <= Hinge.doorHeight buttLeftInput - effectiveTopOffset buttLeftInput
  /\ Lock.validateLockPlacement cylinderLockInput
       (Hinge.buildPlacements buttLeftInput 0 0
          (Hinge.getHingeRotation Left Hinge.butt) 0 [150; 2000 - 150])
     = Lock.validateLockPlacement cylinderLockInput [].
Proof.
  assert (Htype : Hinge.hingeType buttLeftInput <> Hinge.piano)
    by discriminate.
  assert (Hbottom : effectiveBottomOffset buttLeftInput <= 650)
    by (unfold effectiveBottomOffset; simpl; lra).
  assert (Htop : 1350 <= Hinge.doorHeight buttLeftInput
                         - effectiveTopOffset buttLeftInput)
    by (unfold effectiveTopOffset; simpl; lra).
  split; [exact Htype|]. split; [reflexivity|].
  split; [exact Hbottom|]. split; [exact Htop|].
  exact (X12_two_hinges_clear_of_lock lightDoor buttLeftInput _
           cylinderLockInput Htype eq_refl Hbottom Htop
           placeHinges_buttLeftInput).
Defined.

(** X13: a piano hinge is placed at half the door height, and the lock
    validation treats it as a hinge at that height: on a door with a piano
    hinge every lock whose height is within [800, 1200] and closer than
    150mm to doorHeight / 2 is rejected with the hinge proximity error. *)
Theorem X13_piano_hinge_blocks_lock
    (estimateDoorWeight : Hinge.HingePlacementInput -> R)
    (input : Hinge.HingePlacementInput) (ps : list Hinge.HingePlacement)
    (lock : Lock.LockPlacementInput) :
  Hinge.hingeType input = Hinge.piano ->
  Hinge.placeHinges estimateDoorWeight input = Js.Ok ps ->
  800 <= Lock.lockHeight lock <= 1200 ->
  Rabs (Hinge.doorHeight input / 2 - Lock.lockHeight lock) < 150 ->
  Lock.validateLockPlacement lock ps
  = Invalid (Lock.HingeProximityViolation (Hinge.doorHeight input / 2)).
Proof.
  intros Htype Hps Hheight Hnear.
  apply placeHinges_Ok in Hps as [_ Hps]. rewrite Htype in Hps. subst ps.
  unfold Lock.validateLockPlacement.
  destruct (Rlt_dec (Lock.lockHeight lock) 800); [lra|].
  destruct (Rgt_dec (Lock.lockHeight lock) 1200); [lra|].
  simpl. destruct (Rlt_dec _ 150); [reflexivity | contradiction].
Qed.

Lemma placeHinges_pianoLeftInput :
  Hinge.placeHinges lightDoor pianoLeftInput
  = Js.Ok
      [Hinge.calculatePianoHingePlacement 2000 900 Left
         (Hinge.mkPianoHingeParams 30 true)].
Proof.
  unfold Hinge.placeHinges, Hinge.validateHingeCount, lightDoor.
  js_eval. reflexivity.
Qed.

Lemma X13_piano_hinge_blocks_lock_witness :
  Hinge.hingeType pianoLeftInput = Hinge.piano
  /\ 800 <= Lock.lockHeight cylinderLockInput <= 1200
  /\ Rabs (2000 / 2 - 1050) < 150
  /\ Lock.validateLockPlacement cylinderLockInput
       [Hinge.calculatePianoHingePlacement 2000 900 Left
          (Hinge.mkPianoHingeParams 30 true)]
     = Invalid (Lock.HingeProximityViolation (2000 / 2)).
Proof.
  assert (Hheight : 800 <= Lock.lockHeight cylinderLockInput <= 1200)
    by (simpl; lra).
  assert (Hnear : Rabs (Hinge.doorHeight pianoLeftInput / 2
                        - Lock.lockHeight cylinderLockInput) < 150)
    by (simpl; unfold Rabs; destruct (Rcase_abs _); lra).
  split; [reflexivity|]. split; [exact Hheight|]. split; [exact Hnear|].
  exact (X13_piano_hinge_blocks_lock lightDoor pianoLeftInput _
           cylinderLockInput eq_refl placeHinges_pianoLeftInput Hheight
           Hnear).
Defined.

(** * Further properties of the handle algorithm *)

(** X14: the two handles of a door mirror each other about the middle of
    the leaf: the exterior depth and the interior depth add up to
    -leafThickness for every handle type, the exterior handle is never
    behind the exterior face (Z >= 0) and the interior handle never in front
    of the interior face (Z <= -leafThickness). *)
Theorem X14_handle_depths_mirror (handleType : Handle.HandleType)
    (leafThickness : R) :
  let outside :=
    Handle.calculateHandleDepth handleType leafThickness Handle.exterior in
  let inside :=
    Handle.calculateHandleDepth handleType leafThickness Handle.interior in
  outside + inside = - leafThickness
  /\ 0 <= outside
  /\ inside <= - leafThickness.
Proof.
  destruct handleType; simpl; repeat split; lra.
Qed.

(** X15: a lever or a knob turns by a quarter turn whose sign flips with
    the edge and with the mounting side, so the exterior handle on one edge
    has the rotation of the interior handle on the other edge; a pull or a
    bar has the same rotation on both edges, 0 outside and PI inside. *)
Theorem X15_handle_rotation_mirrors (handleType : Handle.HandleType)
    (edge : Edge) (side : Handle.MountSide) :
  let turn e s :=
    Euler.y (Handle.calculateHandleRotation e handleType s) in
  let otherEdge := match edge with Left => Right | Right => Left end in
  let otherSide :=
    match side with
    | Handle.exterior => Handle.interior
    | Handle.interior => Handle.exterior
    end in
  match handleType with
  | Handle.lever | Handle.knob =>
      turn otherEdge side = - turn edge side
      /\ turn edge otherSide = - turn edge side
      /\ Handle.calculateHandleRotation otherEdge handleType otherSide
         = Handle.calculateHandleRotation edge handleType side
      /\ (turn edge side = PI / 2 \/ turn edge side = - PI / 2)
  | Handle.pull | Handle.bar =>
      Handle.calculateHandleRotation otherEdge handleType side
      = Handle.calculateHandleRotation edge handleType side
      /\ turn edge Handle.exterior = 0
      /\ turn edge Handle.interior = PI
  end.
Proof.
  destruct handleType, edge, side; simpl; repeat split;
    try reflexivity; try lra; try (left; lra); try (right; lra);
    try (unfold Handle.calculateHandleRotation; f_equal; lra).
Qed.

(** X16: coordinating a handle with a lock changes nothing but the handle
    height, and doing it twice is the same as doing it once. *)
Theorem X16_coordination_idempotent
    (handleInput : Handle.HandlePlacementInput)
    (lockPlacement : Lock.LockPlacement) :
  let coordinated :=
    Handle.coordinateHandleWithLock handleInput lockPlacement in
  Handle.coordinateHandleWithLock coordinated lockPlacement = coordinated
  /\ Handle.doorHeight coordinated = Handle.doorHeight handleInput
  /\ Handle.doorWidth coordinated = Handle.doorWidth handleInput
  /\ Handle.leafThickness coordinated = Handle.leafThickness handleInput
  /\ Handle.handleType coordinated = Handle.handleType handleInput
  /\ Handle.handleStyle coordinated = Handle.handleStyle handleInput
  /\ Handle.side coordinated = Handle.side handleInput
  /\ Handle.lockHeight coordinated = Handle.lockHeight handleInput
  /\ Handle.edge coordinated = Handle.edge handleInput.
Proof.
  unfold Handle.coordinateHandleWithLock.
  destruct (Js.truthy (Handle.lockHeight handleInput)) eqn:Hlock; simpl.
  - rewrite Hlock. simpl. repeat split; reflexivity.
  - rewrite Hlock. simpl. repeat split; reflexivity.
Qed.

(** X17: the handle is placed at a fixed 60mm from the edge when a lock
    height is given, whatever the edge offset of the lock: on the same edge
    of the same door the handle and the lock have the same X exactly when
    the lock's edge offset is 60mm. *)
Theorem X17_handle_aligned_with_lock_iff
    (handleInput : Handle.HandlePlacementInput) (side : Handle.MountSide)
    (lockInput : Lock.LockPlacementInput) :
  Js.truthy (Handle.lockHeight handleInput) = true ->
  Handle.edge handleInput = Lock.edge lockInput ->
  Handle.doorWidth handleInput = Lock.doorWidth lockInput ->
  (Vector3.x (Handle.calculateHandlePosition handleInput side)
   = Vector3.x (Lock.calculateLockPosition lockInput)
   <-> Lock.edgeOffset lockInput = 60).
Proof.
  intros Hlock Hedge Hwidth.
  unfold Handle.calculateHandlePosition, Lock.calculateLockPosition.
  rewrite Hlock, Hedge, Hwidth. simpl.
  destruct (Lock.edge lockInput); split; intros; lra.
Qed.

Lemma X17_handle_aligned_with_lock_iff_witness :
  Js.truthy (Handle.lockHeight leverWithLockInput) = true
  /\ Handle.edge leverWithLockInput = Lock.edge cylinderLockInput
  /\ Handle.doorWidth leverWithLockInput = Lock.doorWidth cylinderLockInput
  /\ (Vector3.x
        (Handle.calculateHandlePosition leverWithLockInput Handle.exterior)
      = Vector3.x (Lock.calculateLockPosition cylinderLockInput)
      <-> Lock.edgeOffset cylinderLockInput = 60).
Proof.
  assert (Hlock : Js.truthy (Handle.lockHeight leverWithLockInput) = true)
    by (simpl; decide_reals; reflexivity).
  split; [exact Hlock|]. split; [reflexivity|]. split; [reflexivity|].
  exact (X17_handle_aligned_with_lock_iff leverWithLockInput Handle.exterior
           cylinderLockInput Hlock eq_refl eq_refl).
Defined.

(** * Further properties of the bolt algorithm *)

(** X18: the bolt validation accepts an input exactly when both offsets are
    within [150, 300], at least one position is requested and, for a flush
    or automatic bolt, the leaf is at least 40mm thick; with offsets in
    range and a position requested, a flush or automatic bolt on a thinner
    leaf is rejected with the thickness error. *)
Theorem X18_bolt_validation (input : Bolt.BoltPlacementInput) :
  let offsetsInRange :=
    150 <= Bolt.topOffset input <= 300
    /\ 150 <= Bolt.bottomOffset input <= 300 in
  let recessed :=
    Bolt.boltType input = Bolt.flush
    \/ Bolt.boltType input = Bolt.automatic in
  (Bolt.validateBoltPlacement input = Valid
   <-> offsetsInRange
       /\ Bolt.positions input <> []
       /\ (recessed -> 40 <= Bolt.leafThickness input))
  /\ (Bolt.validateBoltPlacement input = Invalid Bolt.ThicknessInsufficient
      <-> offsetsInRange
          /\ Bolt.positions input <> []
          /\ recessed /\ Bolt.leafThickness input < 40).
Proof.
  intros offsetsInRange recessed. subst offsetsInRange recessed.
  unfold Bolt.validateBoltPlacement.
  destruct (Rlt_dec (Bolt.topOffset input) 150);
    [split; split; try discriminate; intros; exfalso; lra|].
  destruct (Rgt_dec (Bolt.topOffset input) 300);
    [split; split; try discriminate; intros; exfalso; lra|].
  destruct (Rlt_dec (Bolt.bottomOffset input) 150);
    [split; split; try discriminate; intros; exfalso; lra|].
  destruct (Rgt_dec (Bolt.bottomOffset input) 300);
    [split; split; try discriminate; intros; exfalso; lra|].
  destruct (Bolt.positions input) as [|position positions]; simpl.
  { split; split; try discriminate; intros (_ & Hne & _); now destruct Hne. }
  assert (Hoff : (150 <= Bolt.topOffset input <= 300)
                 /\ 150 <= Bolt.bottomOffset input <= 300) by lra.
  assert (Hne : position :: positions <> []) by discriminate.
  destruct (Bolt.boltType input) eqn:Htype.
  - destruct (Rlt_dec (Bolt.leafThickness input) 40) as [Hthin|Hthick];
      split; split.
    + discriminate.
    + intros (_ & _ & Hrec). exfalso.
      specialize (Hrec (or_introl eq_refl)). lra.
    + intros _. auto.
    + reflexivity.
    + intros _. split; [assumption|]. split; [assumption|]. intros _. lra.
    + reflexivity.
    + discriminate.
    + intros (_ & _ & _ & Hthin). lra.
  - split; split.
    + intros _. split; [assumption|]. split; [assumption|].
      intros [Hrec|Hrec]; discriminate.
    + reflexivity.
    + discriminate.
    + intros (_ & _ & [Hrec|Hrec] & _); discriminate.
  - destruct (Rlt_dec (Bolt.leafThickness input) 40) as [Hthin|Hthick];
      split; split.
    + discriminate.
    + intros (_ & _ & Hrec). exfalso.
      specialize (Hrec (or_intror eq_refl)). lra.
    + intros _. auto.
    + reflexivity.
    + intros _. split; [assumption|]. split; [assumption|]. intros _. lra.
    + reflexivity.
    + discriminate.
    + intros (_ & _ & _ & Hthin). lra.
Qed.

(** X19: the bolts of an input that the validation accepts, on a door
    higher than 600mm: every bolt is at a height within
    [150, doorHeight - 150] and not in front of the exterior face, a flush
    or automatic bolt lies strictly inside the leaf, and every top bolt is
    above every bottom bolt. *)
Theorem X19_valid_bolts_placed_inside (input : Bolt.BoltPlacementInput) :
  Bolt.validateBoltPlacement input = Valid ->
  600 < Bolt.doorHeight input ->
  let placements := Bolt.calculateBoltPositions input in
  placements <> []
  /\ Forall
       (fun p =>
          150 <= Vector3.y (Bolt.position p) <= Bolt.doorHeight input - 150
          /\ Vector3.z (Bolt.position p) <= 0
          /\ (Bolt.boltType input <> Bolt.surface ->
              - Bolt.leafThickness input < Vector3.z (Bolt.position p) < 0))
       placements
  /\ (forall p q,
        In p placements -> In q placements ->
        Bolt.Metadata.position (Bolt.metadata p) = Bolt.top ->
        Bolt.Metadata.position (Bolt.metadata q) = Bolt.bottom ->
        Vector3.y (Bolt.position q) < Vector3.y (Bolt.position p)).
Proof.
  intros Hvalid Hheight placements. subst placements.
  rewrite calculateBoltPositions_map.
  unfold Bolt.validateBoltPlacement in Hvalid.
  destruct (Rlt_dec (Bolt.topOffset input) 150); [discriminate|].
  destruct (Rgt_dec (Bolt.topOffset input) 300); [discriminate|].
  destruct (Rlt_dec (Bolt.bottomOffset input) 150); [discriminate|].
  destruct (Rgt_dec (Bolt.bottomOffset input) 300); [discriminate|].
  destruct (Bolt.positions input) as [|position positions] eqn:Hpos;
    [discriminate|].
  simpl in Hvalid.
  assert (Hdepth : Vector3.z (Bolt.position (Bolt.placeBolt input position))
                   <= 0
                   /\ (Bolt.boltType input <> Bolt.surface ->
                       - Bolt.leafThickness input
                       < Bolt.calculateBoltDepth (Bolt.boltType input)
                           (Bolt.leafThickness input) < 0)).
  { simpl. unfold Bolt.calculateBoltDepth.
    destruct (Bolt.boltType input);
      try (destruct (Rlt_dec (Bolt.leafThickness input) 40);
           [discriminate|]);
      split; try lra; intros Hne; try lra; now destruct Hne. }
  destruct Hdepth as [Hz Hinside].
  split; [discriminate|]. split.
  - apply Forall_forall. intros p Hp.
    apply in_map_iff in Hp as (pos & <- & _). simpl.
    split; [destruct pos; lra|]. split; [exact Hz | exact Hinside].
  - intros p q Hp Hq Hptop Hqbottom.
    apply in_map_iff in Hp as (pos & <- & _).
    apply in_map_iff in Hq as (pos' & <- & _).
    simpl in *. subst pos pos'. lra.
Qed.

Lemma X19_valid_bolts_placed_inside_witness :
  Bolt.validateBoltPlacement flushBoltInput = Valid
  /\ 600 < Bolt.doorHeight flushBoltInput
  /\ Bolt.calculateBoltPositions flushBoltInput <> [].
Proof.
  assert (Hvalid : Bolt.validateBoltPlacement flushBoltInput = Valid)
    by (unfold Bolt.validateBoltPlacement; js_eval; reflexivity).
  assert (Hheight : 600 < Bolt.doorHeight flushBoltInput) by (simpl; lra).
  split; [exact Hvalid|]. split; [exact Hheight|].
  exact (proj1 (X19_valid_bolts_placed_inside flushBoltInput Hvalid Hheight)).
Defined.

Lemma bolt_id_injective (p q : Bolt.Position) :
  ("bolt_" ++ Bolt.positionName p)%string
  = ("bolt_" ++ Bolt.positionName q)%string ->
  p = q.
Proof.
  destruct p, q; simpl; intros Heq; try reflexivity; discriminate.
Qed.

(** X20: the id of a bolt is made of its position alone, so the ids of the
    returned bolts are pairwise different exactly when no position is
    requested twice; the calculator returns one bolt per request and does
    not remove a repeated position. *)
Theorem X20_bolt_ids_unique_iff (input : Bolt.BoltPlacementInput) :
  List.length (Bolt.calculateBoltPositions input)
  = List.length (Bolt.positions input)
  /\ (NoDup (map Bolt.id (Bolt.calculateBoltPositions input))
      <-> NoDup (Bolt.positions input)).
Proof.
  rewrite calculateBoltPositions_map, length_map, map_map. simpl.
  split; [reflexivity|]. split.
  - apply NoDup_map_inv.
  - apply Finite.Injective_map_NoDup. intros p q. apply bolt_id_injective.
Qed.

(** * Further properties of the conflict detector *)

Lemma string_cons_inj (c c' : ascii) (s s' : string) :
  String c s = String c' s' -> c = c' /\ s = s'.
Proof. intros [= -> ->]. split; reflexivity. Qed.

(** Find how a key splits at its dash. *)
Ltac split_key H :=
  repeat match type of H with
    | (?s ++ _)%string = _ => destruct s; simpl in H
    | String _ _ = String _ _ =>
        let Hc := fresh "Hc" in
        apply string_cons_inj in H as [Hc H];
        first [discriminate Hc | subst | clear Hc]
    | String _ _ = EmptyString => discriminate H
    | EmptyString = String _ _ => discriminate H
    end.

Lemma lookup_minClearance (s1 s2 : string) (v : R) :
  Conflict.lookup Conflict.minClearance (s1 ++ "-" ++ s2)%string = Some v ->
  (s1 = "hinge" /\ s2 = "lock" /\ v = 150)%string
  \/ (s1 = "hinge" /\ s2 = "handle")%string
  \/ (s1 = "hinge" /\ s2 = "bolt")%string
  \/ (s1 = "lock" /\ s2 = "handle")%string
  \/ (s1 = "lock" /\ s2 = "bolt")%string
  \/ (s1 = "handle" /\ s2 = "bolt")%string.
Proof.
  unfold Conflict.lookup, Conflict.minClearance.
  repeat match goal with
    | |- context [String.eqb ?k ?key] =>
        destruct (String.eqb_spec k key) as [Heq|_];
        [symmetry in Heq; intros Hv; split_key Heq; injection Hv as <-;
         tauto|]
    end.
  discriminate.
Qed.

Lemma requiredClearance_cases (item1 item2 : Conflict.Item) :
  (hingeAndLock item1 item2
   /\ Conflict.requiredClearance item1 item2 = 150)
  \/ (~ hingeAndLock item1 item2
      /\ Conflict.requiredClearance item1 item2 = 100).
Proof.
  unfold hingeAndLock, Conflict.requiredClearance, Conflict.sortTypes.
  destruct (Conflict.metadata_type item1) as [s1|],
    (Conflict.metadata_type item2) as [s2|];
    cbn [fst snd Conflict.show].
  - destruct (String.ltb s2 s1) eqn:Hlt; cbn [fst snd Conflict.show].
    + destruct (Conflict.lookup _ _) as [v|] eqn:Hv.
      * apply lookup_minClearance in Hv
          as [(-> & -> & ->)|[(-> & ->)|[(-> & ->)|[(-> & ->)|[(-> & ->)
             |(-> & ->)]]]]];
          try discriminate Hlt.
        left. split; [right; auto|]. simpl. decide_reals.
      * right. split; [|reflexivity].
        intros [(Ha & Hb)|(Ha & Hb)]; injection Ha as ->; injection Hb as ->;
          discriminate.
    + destruct (Conflict.lookup _ _) as [v|] eqn:Hv.
      * apply lookup_minClearance in Hv
          as [(-> & -> & ->)|[(-> & ->)|[(-> & ->)|[(-> & ->)|[(-> & ->)
             |(-> & ->)]]]]];
          try discriminate Hlt.
        left. split; [left; auto|]. simpl. decide_reals.
      * right. split; [|reflexivity].
        intros [(Ha & Hb)|(Ha & Hb)]; injection Ha as ->; injection Hb as ->;
          discriminate.
  - destruct (Conflict.lookup _ _) as [v|] eqn:Hv.
    + apply lookup_minClearance in Hv
        as [(-> & Hu & ->)|[(-> & Hu)|[(-> & Hu)|[(-> & Hu)|[(-> & Hu)
           |(-> & Hu)]]]]];
        discriminate Hu.
    + right. split; [|reflexivity].
      intros [(_ & Hb)|(_ & Hb)]; discriminate.
  - destruct (Conflict.lookup _ _) as [v|] eqn:Hv.
    + apply lookup_minClearance in Hv
        as [(-> & Hu & ->)|[(-> & Hu)|[(-> & Hu)|[(-> & Hu)|[(-> & Hu)
           |(-> & Hu)]]]]];
        discriminate Hu.
    + right. split; [|reflexivity].
      intros [(Ha & _)|(Ha & _)]; discriminate.
  - right. split; [|reflexivity].
    intros [(Ha & _)|(Ha & _)]; discriminate.
Qed.

(** X21: whatever the types of the items are, the detector requires 150mm
    exactly when the two items are typed 'hinge' and 'lock' (in either
    order) and 100mm in every other case: the clearances of 50, 200 and
    300mm of its table are never applied; the required clearance does not
    depend on the order of the two items. *)
Theorem X21_required_clearance_values (item1 item2 : Conflict.Item) :
  (Conflict.requiredClearance item1 item2 = 150
   <-> hingeAndLock item1 item2)
  /\ (Conflict.requiredClearance item1 item2 = 100
      <-> ~ hingeAndLock item1 item2)
  /\ Conflict.requiredClearance item1 item2
     = Conflict.requiredClearance item2 item1.
Proof.
  assert (Hsym : hingeAndLock item2 item1 <-> hingeAndLock item1 item2)
    by (unfold hingeAndLock; tauto).
  destruct (requiredClearance_cases item1 item2) as [[Hp ->]|[Hn ->]];
    destruct (requiredClearance_cases item2 item1) as [[Hp' ->]|[Hn' ->]];
    repeat split; intros; try assumption; try reflexivity; try lra; tauto.
Qed.

Lemma distanceTo_same (p : Vector3.t) : Vector3.distanceTo p p = 0.
Proof.
  unfold Vector3.distanceTo.
  replace ((Vector3.x p - Vector3.x p) * (Vector3.x p - Vector3.x p)
           + (Vector3.y p - Vector3.y p) * (Vector3.y p - Vector3.y p)
           + (Vector3.z p - Vector3.z p) * (Vector3.z p - Vector3.z p))
    with 0 by lra.
  apply sqrt_0.
Qed.

(** X22: the detector records a conflict for exactly the pairs of items,
    the first before the second in the list of hinges, lock, handles and
    bolts, whose distance is below the clearance it looked up; the conflict
    names the two ids in that order and carries the distance, and it is an
    error (an overlap) exactly when the distance is below half of that
    clearance, a warning (a proximity) otherwise. *)
Theorem X22_detector_records_exactly (hinges : list Hinge.HingePlacement)
    (lock : option Lock.LockPlacement)
    (handles : option (list Handle.HandlePlacement))
    (bolts : option (list Bolt.BoltPlacement))
    (c : Conflict.HardwareConflict) :
  let allHardware := allHardwareOf hinges lock handles bolts in
  (In c (Conflict.detectHardwareConflicts hinges lock handles bolts)
   <-> exists i j item1 item2,
         (i < j)%nat
         /\ nth_error allHardware i = Some item1
         /\ nth_error allHardware j = Some item2
         /\ Vector3.distanceTo (Conflict.position item1)
              (Conflict.position item2)
            < Conflict.requiredClearance item1 item2
         /\ c = conflictOf item1 item2)
  /\ (forall item1 item2,
        let distance :=
          Vector3.distanceTo (Conflict.position item1)
            (Conflict.position item2) in
        let half := Conflict.requiredClearance item1 item2 * 0.5 in
        Conflict.items (conflictOf item1 item2)
        = (Conflict.id item1, Conflict.id item2)
        /\ Conflict.distance (conflictOf item1 item2) = distance
        /\ (Conflict.severity (conflictOf item1 item2) = Conflict.error
            <-> distance < half)
        /\ (Conflict.severity (conflictOf item1 item2) = Conflict.warning
            <-> ~ distance < half)
        /\ (Conflict.type (conflictOf item1 item2) = Conflict.overlap
            <-> distance < half)).
Proof.
  split.
  - apply checkAll_In.
  - intros item1 item2. unfold conflictOf. simpl.
    destruct (Rlt_dec _ _); repeat split; intros;
      try assumption; try reflexivity; try discriminate; contradiction.
Qed.

(** X23: two items at the same position always conflict, with distance 0
    and severity error, whatever their types. *)
Theorem X23_same_position_is_error (allHardware : list Conflict.Item)
    (i j : nat) (item1 item2 : Conflict.Item) :
  (i < j)%nat ->
  nth_error allHardware i = Some item1 ->
  nth_error allHardware j = Some item2 ->
  Conflict.position item1 = Conflict.position item2 ->
  In (conflictOf item1 item2) (Conflict.checkAll allHardware)
  /\ Conflict.distance (conflictOf item1 item2) = 0
  /\ Conflict.severity (conflictOf item1 item2) = Conflict.error.
Proof.
  intros Hij Hi Hj Hpos.
  assert (Hdist : Vector3.distanceTo (Conflict.position item1)
                    (Conflict.position item2) = 0)
    by (rewrite Hpos; apply distanceTo_same).
  assert (Hreq : 100 <= Conflict.requiredClearance item1 item2)
    by (destruct (requiredClearance_cases item1 item2) as [[_ ->]|[_ ->]];
        lra).
  split; [|split].
  - apply checkAll_In. exists i, j, item1, item2.
    repeat split; try assumption. rewrite Hdist. lra.
  - unfold conflictOf. simpl. exact Hdist.
  - apply conflictOf_severity. rewrite Hdist. lra.
Qed.

Lemma X23_same_position_is_error_witness :
  let a := kindItem "hinge" "hinge_0" (Vector3.new 0 150 0) in
  let b := kindItem "bolt" "bolt_bottom" (Vector3.new 0 150 0) in
  (0 < 1)%nat
  /\ In (conflictOf a b) (Conflict.checkAll [a; b])
  /\ Conflict.distance (conflictOf a b) = 0
  /\ Conflict.severity (conflictOf a b) = Conflict.error.
Proof.
  intros a b. split; [lia|].
  exact (X23_same_position_is_error [a; b] 0 1 a b ltac:(lia) eq_refl eq_refl
           eq_refl).
Defined.

(** * Properties of the hardware instancing *)

Section InstancingFacts.

Import Instancing.

Variables (BufferGeometry Material : Type).
Variable getHardwareMaterial : string -> Material.
Variable geometryCache : string -> option BufferGeometry.

Local Abbreviation Mesh := (InstancedHardware BufferGeometry Material).
Local Abbreviation meshes :=
  (flat_map (meshOf getHardwareMaterial geometryCache)).

Lemma second_loop (grouped : list (string * list HardwarePlacement))
    (instanced : list Mesh) :
  fold_left
    (fun instanced entry =>
       let '(type, items) := entry in
       match geometryCache type with
       | None => instanced
       | Some geometry =>
           instanced
           ++ [mkInstancedHardware BufferGeometry Material geometry
                 (getHardwareMaterial type) (map toInstance items)]
       end)
    grouped instanced
  = instanced ++ meshes grouped.
Proof.
  revert instanced.
  induction grouped as [|[type items] grouped IH]; intros instanced; simpl.
  - now rewrite app_nil_r.
  - rewrite IH. unfold meshOf at 2. simpl.
    destruct (geometryCache type); simpl; [|reflexivity].
    now rewrite <- app_assoc.
Qed.

Lemma createInstancedHardware_flat_map (placements : list HardwarePlacement) :
  createInstancedHardware BufferGeometry Material getHardwareMaterial
    placements geometryCache
  = meshes (groupByType placements).
Proof.
  unfold createInstancedHardware. now rewrite second_loop.
Qed.

Lemma pushToGroup_instances (grouped : list (string * list HardwarePlacement))
    (placement : HardwarePlacement) :
  Permutation
    (allInstances
       (meshes
          (pushToGroup grouped (metadata_type placement) placement)))
    (allInstances (meshes grouped)
     ++ (if cached geometryCache placement then [toInstance placement]
         else [])).
Proof.
  unfold allInstances, cached.
  induction grouped as [|[key items] grouped IH]; simpl.
  - unfold meshOf. simpl.
    destruct (geometryCache (metadata_type placement)); reflexivity.
  - destruct (String.eqb_spec key (metadata_type placement)) as [->|Hne];
      simpl.
    + unfold meshOf at 1 3. simpl.
      destruct (geometryCache (metadata_type placement)); simpl.
      * rewrite map_app, <- !app_assoc. apply Permutation_app_head.
        simpl. apply Permutation_cons_append.
      * now rewrite app_nil_r.
    + rewrite !flat_map_app, IH, <- app_assoc. reflexivity.
Qed.

Lemma groupByType_instances (placements : list HardwarePlacement)
    (grouped : list (string * list HardwarePlacement)) :
  Permutation
    (allInstances
       (meshes
          (fold_left
             (fun grouped placement =>
                pushToGroup grouped (metadata_type placement) placement)
             placements grouped)))
    (allInstances (meshes grouped)
     ++ map toInstance (filter (cached geometryCache) placements)).
Proof.
  revert grouped.
  induction placements as [|placement placements IH]; intros grouped; simpl.
  - now rewrite app_nil_r.
  - rewrite IH, pushToGroup_instances, <- app_assoc.
    apply Permutation_app_head.
    destruct (cached geometryCache placement); reflexivity.
Qed.

End InstancingFacts.

(** The groups of the first loop: which keys they have and what they
    hold. *)
Lemma pushToGroup_keys
    (grouped : list (string * list Instancing.HardwarePlacement))
    (type : string) (placement : Instancing.HardwarePlacement) (key : string) :
  In key (map fst (Instancing.pushToGroup grouped type placement))
  <-> In key (map fst grouped) \/ key = type.
Proof.
  induction grouped as [|[k items] grouped IH]; simpl.
  - intuition auto.
  - destruct (String.eqb_spec k type) as [->|Hne]; simpl.
    + intuition auto.
    + rewrite IH. intuition auto.
Qed.

Lemma pushToGroup_NoDup
    (grouped : list (string * list Instancing.HardwarePlacement))
    (type : string) (placement : Instancing.HardwarePlacement) :
  NoDup (map fst grouped) ->
  NoDup (map fst (Instancing.pushToGroup grouped type placement)).
Proof.
  induction grouped as [|[k items] grouped IH]; simpl; intros Hnd.
  - repeat constructor. intros [].
  - inversion Hnd as [|? ? Hnotin Htl]; subst.
    destruct (String.eqb_spec k type) as [->|Hne]; simpl.
    + now constructor.
    + constructor; [|now apply IH].
      rewrite pushToGroup_keys. intros [Hin|Heq]; [auto | congruence].
Qed.

Lemma pushToGroup_nonempty
    (grouped : list (string * list Instancing.HardwarePlacement))
    (type : string) (placement : Instancing.HardwarePlacement) :
  Forall (fun entry => snd entry <> []) grouped ->
  Forall (fun entry => snd entry <> [])
    (Instancing.pushToGroup grouped type placement).
Proof.
  induction grouped as [|[k items] grouped IH]; simpl; intros Hall.
  - repeat constructor. discriminate.
  - inversion Hall; subst.
    destruct (String.eqb k type); constructor; simpl; auto.
    now destruct items.
Qed.

Lemma groupByType_invariant (placements : list Instancing.HardwarePlacement)
    (grouped : list (string * list Instancing.HardwarePlacement)) :
  let result :=
    fold_left
      (fun grouped placement =>
         Instancing.pushToGroup grouped
           (Instancing.metadata_type placement) placement)
      placements grouped in
  (NoDup (map fst grouped) -> NoDup (map fst result))
  /\ (Forall (fun entry => snd entry <> []) grouped ->
      Forall (fun entry => snd entry <> []) result)
  /\ (forall key,
        In key (map fst result)
        <-> In key (map fst grouped)
            \/ In key (map Instancing.metadata_type placements)).
Proof.
  revert grouped.
  induction placements as [|placement placements IH]; intros grouped; simpl.
  - intuition auto.
  - destruct (IH (Instancing.pushToGroup grouped
                    (Instancing.metadata_type placement) placement))
      as (Hnd & Hne & Hkeys).
    split; [|split].
    + intros H. now apply Hnd, pushToGroup_NoDup.
    + intros H. now apply Hne, pushToGroup_nonempty.
    + intros key. rewrite Hkeys, pushToGroup_keys. intuition auto.
Qed.


(** X24: the instancing neither drops nor repeats a placement whose type
    has a cached geometry, and it skips every other placement: the
    instances of all returned meshes are, up to their order, the placements
    with a cached geometry, each with its position and rotation and the
    scale (1, 1, 1). *)
Theorem X24_instances_are_cached_placements
    (BufferGeometry Material : Type)
    (getHardwareMaterial : string -> Material)
    (geometryCache : string -> option BufferGeometry)
    (placements : list Instancing.HardwarePlacement) :
  Permutation
    (allInstances
       (Instancing.createInstancedHardware BufferGeometry Material
          getHardwareMaterial placements geometryCache))
    (map Instancing.toInstance (filter (cached geometryCache) placements)).
Proof.
  rewrite createInstancedHardware_flat_map. unfold Instancing.groupByType.
  rewrite groupByType_instances. reflexivity.
Qed.

Lemma meshes_length (BufferGeometry Material : Type)
    (getHardwareMaterial : string -> Material)
    (geometryCache : string -> option BufferGeometry)
    (grouped : list (string * list Instancing.HardwarePlacement)) :
  List.length (flat_map (meshOf getHardwareMaterial geometryCache) grouped)
  = List.length
      (filter
         (fun key =>
            match geometryCache key with Some _ => true | None => false end)
         (map fst grouped)).
Proof.
  induction grouped as [|[key items] grouped IH]; simpl; [reflexivity|].
  unfold meshOf at 1. simpl.
  destruct (geometryCache key); simpl; now rewrite IH.
Qed.

(** X25: the instancing returns one mesh for each distinct type that occurs
    among the placements and has a cached geometry; every mesh has at least
    one instance, and its geometry and material are those of the type of
    one of the placements. *)
Theorem X25_one_mesh_per_cached_type
    (BufferGeometry Material : Type)
    (getHardwareMaterial : string -> Material)
    (geometryCache : string -> option BufferGeometry)
    (placements : list Instancing.HardwarePlacement) :
  let instanced :=
    Instancing.createInstancedHardware BufferGeometry Material
      getHardwareMaterial placements geometryCache in
  let cachedType key :=
    match geometryCache key with Some _ => true | None => false end in
  List.length instanced
  = List.length
      (nodup string_dec
         (filter cachedType (map Instancing.metadata_type placements)))
  /\ Forall
       (fun mesh =>
          Instancing.instances BufferGeometry Material mesh <> []
          /\ exists p,
               In p placements
               /\ geometryCache (Instancing.metadata_type p)
                  = Some (Instancing.geometry BufferGeometry Material mesh)
               /\ Instancing.material BufferGeometry Material mesh
                  = getHardwareMaterial (Instancing.metadata_type p))
       instanced.
Proof.
  intros instanced cachedType. subst instanced.
  rewrite createInstancedHardware_flat_map. unfold Instancing.groupByType.
  destruct (groupByType_invariant placements []) as (Hnd & Hne & Hkeys).
  specialize (Hnd (NoDup_nil _)). specialize (Hne (Forall_nil _)).
  simpl in Hkeys. split.
  - rewrite meshes_length. apply Permutation_length.
    apply NoDup_Permutation.
    + now apply NoDup_filter.
    + apply NoDup_nodup.
    + intros key. rewrite nodup_In, !filter_In, Hkeys. intuition auto.
  - apply Forall_forall. intros mesh Hmesh.
    apply in_flat_map in Hmesh as ([key items] & Hentry & Hmesh).
    unfold meshOf in Hmesh. simpl in Hmesh.
    destruct (geometryCache key) as [geometry|] eqn:Hcache; [|contradiction].
    destruct Hmesh as [<-|[]]. simpl. split.
    + rewrite Forall_forall in Hne. specialize (Hne _ Hentry). simpl in Hne.
      now destruct items.
    + assert (Hkey : In key (map Instancing.metadata_type placements)).
      { destruct (proj1 (Hkeys key)) as [[]|Hk]; [|exact Hk].
        apply in_map_iff. now exists (key, items). }
      apply in_map_iff in Hkey as (p & <- & Hp).
      exists p. auto.
Qed.
